(** * berga: script and template commands

    A shallow embedding of [cmd/root.go] (configuration paths, the [script]
    command group) and [cmd/template.go] (the [template] command group) of
    the berga command-line utility, with the properties of the script runner
    and the template applier stated over it.

    Go strings are byte sequences and are modelled as [string]; Go's [int]
    and [time.Duration] are 64-bit integers, modelled as [Z] with the
    wrap-around written out. *)

From Stdlib Require Import ZArith Ascii String List Lia.
From stdpp Require Import base option gmap strings list pretty.

Local Open Scope string_scope.
Local Open Scope Z_scope.

(** ** Package [strings] *)

(** [strings.HasPrefix(s, prefix)]. *)
Fixpoint strings_HasPrefix (s prefix : string) {struct prefix} : bool :=
  match prefix, s with
  | EmptyString, _ => true
  | String p prefix', String c s' => Ascii.eqb p c && strings_HasPrefix s' prefix'
  | String _ _, EmptyString => false
  end.

(** [strings.HasSuffix(s, suffix)]: the prefix test on the reversed bytes. *)
Definition strings_HasSuffix (s suffix : string) : bool :=
  strings_HasPrefix (String.rev s) (String.rev suffix).

(** The byte slice [s[n:]]. *)
Fixpoint slice_from (n : nat) (s : string) : string :=
  match n, s with
  | O, _ => s
  | S n', String _ s' => slice_from n' s'
  | S _, EmptyString => EmptyString
  end.

Definition byte (c : ascii) : N := N_of_ascii c.

(** Lowering of one byte: ['A'..'Z'] move to ['a'..'z'], every other byte
    stays. *)
Definition lower_byte (c : ascii) : ascii :=
  if (0x41 <=? byte c)%N && (byte c <=? 0x5A)%N
  then ascii_of_N (byte c + 0x20) else c.

(** [strings.ToLower(s)] on the bytes of [s].  For a string with bytes
    outside ASCII Go lowers rune by rune; the only runes outside ASCII whose
    lower case is an ASCII letter are U+212A (to [k]) and U+0130 (to [i]),
    every other rune keeps bytes of 0x80 and above.  The program only
    compares the result with [.ps1], [.bat], [.cmd] (as a suffix) and with
    [y], [yes]: on those tests the byte-wise lowering and Go's agree. *)
Fixpoint strings_ToLower (s : string) : string :=
  match s with
  | EmptyString => EmptyString
  | String c s' => String (lower_byte c) (strings_ToLower s')
  end.

(** The six ASCII bytes of [unicode.IsSpace]: tab, line feed, vertical tab,
    form feed, carriage return, space. *)
Definition asciiSpace (b : N) : bool :=
  ((0x09 <=? b) && (b <=? 0x0D) || (b =? 0x20))%N.

(** The two-byte encodings of U+0085 and U+00A0. *)
Definition space2 (b1 b2 : N) : bool :=
  ((b1 =? 0xC2) && ((b2 =? 0x85) || (b2 =? 0xA0)))%N.

(** The three-byte encodings of U+1680, U+2000..U+200A, U+2028, U+2029,
    U+202F, U+205F and U+3000. *)
Definition space3 (b1 b2 b3 : N) : bool :=
  ((b1 =? 0xE1) && (b2 =? 0x9A) && (b3 =? 0x80)
   || (b1 =? 0xE2) && (b2 =? 0x80)
      && ((0x80 <=? b3) && (b3 <=? 0x8A)
          || (b3 =? 0xA8) || (b3 =? 0xA9) || (b3 =? 0xAF))
   || (b1 =? 0xE2) && (b2 =? 0x81) && (b3 =? 0x9F)
   || (b1 =? 0xE3) && (b2 =? 0x80) && (b3 =? 0x80))%N.

(** Width in bytes of the white-space rune ([unicode.IsSpace]) that starts
    [s], or [0] when [s] does not start with one.  The first byte of every
    such encoding is ASCII or a UTF-8 lead byte, so a match always sits on a
    rune boundary of Go's decoding. *)
Definition space_width (s : string) : nat :=
  match s with
  | EmptyString => 0%nat
  | String c1 r1 =>
      if asciiSpace (byte c1) then 1%nat
      else match r1 with
           | EmptyString => 0%nat
           | String c2 r2 =>
               if space2 (byte c1) (byte c2) then 2%nat
               else match r2 with
                    | EmptyString => 0%nat
                    | String c3 _ =>
                        if space3 (byte c1) (byte c2) (byte c3) then 3%nat
                        else 0%nat
                    end
           end
  end.

(** The same, reading backwards: [r] is a reversed string, the result is
    the width of the white-space rune that ends the original. *)
Definition space_width_rev (r : string) : nat :=
  match r with
  | EmptyString => 0%nat
  | String c1 r1 =>
      if asciiSpace (byte c1) then 1%nat
      else match r1 with
           | EmptyString => 0%nat
           | String c2 r2 =>
               if space2 (byte c2) (byte c1) then 2%nat
               else match r2 with
                    | EmptyString => 0%nat
                    | String c3 _ =>
                        if space3 (byte c3) (byte c2) (byte c1) then 3%nat
                        else 0%nat
                    end
           end
  end.

(** Drops the white-space runes at the head of [s], as measured by [width];
    [skip] counts the bytes of the current rune still to drop. *)
Fixpoint trim_head (width : string -> nat) (skip : nat) (s : string) : string :=
  match s with
  | EmptyString => EmptyString
  | String _ s' =>
      match skip with
      | S k => trim_head width k s'
      | O => match width s with
             | S k => trim_head width k s'
             | O => s
             end
      end
  end.

(** [strings.TrimSpace(s)]: leading, then trailing white space removed. *)
Definition strings_TrimSpace (s : string) : string :=
  String.rev (trim_head space_width_rev 0 (String.rev (trim_head space_width 0 s))).

(** The loop of [strings.FieldsFunc(s, unicode.IsSpace)]: [cur] is the field
    being read ([None] between fields, the bytes so far in reverse inside
    one), [skip] the bytes of the current white-space rune still to pass. *)
Fixpoint fields_loop (skip : nat) (cur : option string) (s : string) : list string :=
  let close (rest : list string) :=
    match cur with
    | Some f => String.rev f :: rest
    | None => rest
    end in
  match s with
  | EmptyString => close []
  | String c s' =>
      match skip with
      | S k => fields_loop k None s'
      | O => match space_width s with
             | S k => close (fields_loop k None s')
             | O => fields_loop 0 (Some (String c (default EmptyString cur))) s'
             end
      end
  end.

(** [strings.Fields(s)]. *)
Definition strings_Fields (s : string) : list string := fields_loop 0 None s.

(** [strings.Join(elems, sep)]. *)
Fixpoint strings_Join (elems : list string) (sep : string) : string :=
  match elems with
  | [] => EmptyString
  | [e] => e
  | e :: rest => e +:+ sep +:+ strings_Join rest sep
  end.

(** ** Package [bufio]: the first [Scan] of a line scanner *)

(** The bytes of [d] before its first line feed (all of [d] without one). *)
Fixpoint before_newline (d : string) : string :=
  match d with
  | EmptyString => EmptyString
  | String c d' =>
      if (byte c =? 0x0A)%N then EmptyString else String c (before_newline d')
  end.

(** [dropCR]: one trailing carriage return is removed. *)
Definition dropCR (line : string) : string :=
  match String.rev line with
  | String c r => if (byte c =? 0x0D)%N then String.rev r else line
  | EmptyString => line
  end.

(** [bufio.MaxScanTokenSize]: the scanner's buffer stops growing there. *)
Definition MaxScanTokenSize : N := 65536.

(** [scanner.Scan()] followed by [scanner.Text()] on a fresh
    [bufio.NewScanner] over the bytes [d]: [None] is [Scan() == false].
    No line is delivered from an empty input, nor when the buffer fills up
    (at [MaxScanTokenSize] bytes) before the line ends. *)
Definition scan_first_line (d : string) : option string :=
  match d with
  | EmptyString => None
  | String _ _ =>
      let line := before_newline d in
      if (N.of_nat (String.length line) <? MaxScanTokenSize)%N
      then Some (dropCR line) else None
  end.

(** ** Files, processes and settings *)

(** What a path of the file system leads to; a path without entry leads to
    nothing, and the operating system says that it does not exist.  [perm]
    holds the nine permission bits.  [Inaccessible] stands for a path the
    process is denied: [os.Stat] fails on it with an error other than "does
    not exist", and whether a file is there cannot be told.  [NotDirectory]
    and [NameTooLong] stand for paths behind which no file can be, and of
    which the operating system does not say that they do not exist: a path
    that runs through a file that is no directory ([notes/x] beside a
    regular file [notes]), and a path with a name longer than the file
    system takes. *)
Inductive node :=
| RegularFile (perm : Z) (data : string)
| Directory (perm : Z)
| Inaccessible
| NotDirectory
| NameTooLong.

(** [fs.FileInfo], as far as the commands look at it. *)
Record FileInfo := { Mode : Z; Size : Z }.

(** [fs.ModeDir]. *)
Definition ModeDir : Z := 2 ^ 31.

(** The errors of the operating system, as far as the commands tell them
    apart. *)
Inductive oserror := ENOENT | EACCES | EISDIR | ENOTDIR | ENAMETOOLONG.

(** [os.IsNotExist(err)]. *)
Definition os_IsNotExist (e : oserror) : bool :=
  match e with ENOENT => true | _ => false end.

(** [os.IsNotExist(err)] on the error of a call that may have succeeded
    ([err == nil] gives [false]). *)
Definition notExist {A} (r : A + oserror) : bool :=
  match r with
  | inr err => os_IsNotExist err
  | inl _ => false
  end.

(** [exec.Command(name, arg...)]. *)
Record Cmd := exec_Command { Name : string; Args : list string }.

(** How far the goroutine of [runScript] that runs the child has come when
    the timer wins the [select]: [cmd.Run()] is not yet called; it is called
    and [cmd.Process] is still nil (the start is under way, or it has
    failed); or the child is started and [cmd.Process] is set. *)
Inductive progress := NotCalled | Starting | Started.

(** The errors the commands return.  [ScriptNotFound] and [TemplateNotFound]
    are the spec's [NotFound], [ExecutionFailed] its [ExecutionFailure] and
    [TimedOut] carries the duration printed in the message. *)
Inductive error :=
| ScriptNotFound (name dir : string)
| ExecutionFailed (cause : string)
| TimedOut (after : Z)
| ProcessError (cause : string)
| ReadScriptFailed (cause : oserror)
| TemplateNotFound (name dir : string)
| ReadTemplateFailed (cause : oserror)
| ParseTemplateFailed (cause : string)
| CreateOutputFailed (cause : oserror)
| ExecuteTemplateFailed (cause : string).

(** How a run of a script ends: [runScript] returns, with an error or
    with none, or the program panics. *)
Inductive outcome :=
| Returns (err : option error)
| Panics.

(** What the commands write to standard output, one constructor per
    message. *)
Inductive message :=
| MsgExecuting (line : string)
| MsgTimeout (d : Z)
| MsgOutputStarts
| MsgCompleted
| MsgOpening (path editor : string)
| MsgScriptHeader (path : string)
| MsgRule (width : Z)
| MsgContent (data : string)
| MsgOverwrite (file : string)
| MsgCancelled
| MsgVariablesHeader
| MsgPrompt (label : string)
| MsgValue (label value : string)
| MsgApplied (name file : string).

(** What a command does that the outside can see, in order: what it
    prints, the calls of [cmd.Run()], and the kill signals sent to a started
    child ([Process.Kill()] on the process of a command). *)
Inductive event :=
| Output (m : message)
| Run (c : Cmd)
| Kill (c : Cmd).

(** Everything a command reads and does not change: the platform, the
    environment, the settings ([viper]), the parsed flags, the library
    functions whose result depends on the platform, the template engine and
    the behaviour of child processes. *)
Record Env := {
  GOOS : string;
  UserHomeDir : option string;
  Getwd : option string;
  Getenv : string -> string;
  filepath_Join : string -> string -> string;
  filepath_Base : string -> string;
  umask : Z;
  (* opening a new file at a path that leads to nothing, as os.Create does:
     the error it fails with (the directory of the path is not there, is no
     directory, is not open to writing, ...), or none when the file is
     made *)
  newfile_error : gmap string node -> string -> option oserror;
  (* viper: an absent key reads as 0, false and the empty string *)
  viper_GetInt : string -> Z;
  viper_GetBool : string -> bool;
  viper_GetString : string -> string;
  (* the value given to --timeout, when the flag is on the command line *)
  timeout_flag : option Z;
  (* text/template: Parse fails or not; Execute writes some bytes and may
     then fail *)
  template_Parse : string -> string -> option string;
  template_Execute : string -> gmap string string -> string * option string;
  (* child processes: what cmd.Run() returns when it is waited for, whether
     the select takes the timer of the given length rather than the result
     of cmd.Run(), how far the start of the child has come when it does, and
     what Process.Kill() returns *)
  child_Run : Cmd -> option string;
  child_outlasts : Cmd -> Z -> bool;
  child_progress : Cmd -> Z -> progress;
  child_Kill : Cmd -> option string
}.

(** Everything a command can change: the files, the answers still to come
    on standard input (the word each coming [fmt.Scanln] stores), and the
    events so far. *)
Record World := {
  fs : gmap string node;
  answers : list string;
  trace : list event
}.

(** ** Commands as state transformers *)

(** A command maps the world before it to its result and the world after. *)
Definition M (A : Type) : Type := World -> A * World.

Definition ret {A} (a : A) : M A := fun w => (a, w).

Definition bind {A B} (m : M A) (k : A -> M B) : M B :=
  fun w => let (a, w') := m w in k a w'.

Notation "x <- m ;; k" := (bind m (fun x => k))
  (at level 100, m at next level, right associativity).
Notation "m ;;; k" := (bind m (fun _ => k))
  (at level 100, right associativity).

Definition gets {A} (f : World -> A) : M A := fun w => (f w, w).

Definition emit (e : event) : M unit :=
  fun w => (tt, {| fs := fs w; answers := answers w; trace := trace w ++ [e] |}).

Definition print (m : message) : M unit := emit (Output m).

Definition when (b : bool) (m : M unit) : M unit := if b then m else ret tt.

(** [fmt.Scanln(&v)] into a fresh string variable: the next answer, or the
    empty string when standard input has nothing more. *)
Definition fmt_Scanln : M string :=
  fun w => match answers w with
           | [] => (EmptyString, w)
           | a :: rest => (a, {| fs := fs w; answers := rest; trace := trace w |})
           end.

(** ** Package [os] *)

(** The permission bits are read for the owner of the file: the process
    runs as the user whose home directory holds the files, and not as the
    superuser. *)
Definition readable (perm : Z) : bool := negb (Z.land perm 0x100 =? 0).
Definition writable (perm : Z) : bool := negb (Z.land perm 0x080 =? 0).

(** [os.Stat(path)]. *)
Definition stat (files : gmap string node) (path : string) : FileInfo + oserror :=
  match files !! path with
  | None => inr ENOENT
  | Some Inaccessible => inr EACCES
  | Some NotDirectory => inr ENOTDIR
  | Some NameTooLong => inr ENAMETOOLONG
  | Some (Directory perm) => inl {| Mode := Z.lor ModeDir perm; Size := 0 |}
  | Some (RegularFile perm data) =>
      inl {| Mode := perm; Size := Z.of_nat (String.length data) |}
  end.

Definition os_Stat (path : string) : M (FileInfo + oserror) :=
  gets (fun w => stat (fs w) path).

(** [os.ReadFile(path)]. *)
Definition read_file (files : gmap string node) (path : string) : string + oserror :=
  match files !! path with
  | None => inr ENOENT
  | Some Inaccessible => inr EACCES
  | Some NotDirectory => inr ENOTDIR
  | Some NameTooLong => inr ENAMETOOLONG
  | Some (Directory perm) => inr (if readable perm then EISDIR else EACCES)
  | Some (RegularFile perm data) => if readable perm then inl data else inr EACCES
  end.

Definition os_ReadFile (path : string) : M (string + oserror) :=
  gets (fun w => read_file (fs w) path).

(** [os.Open(path)] and the bytes a reader gets from the open file: a
    directory opens, and every read from it fails. *)
Definition open_file (files : gmap string node) (path : string)
  : option (string + oserror) :=
  match files !! path with
  | None | Some Inaccessible | Some NotDirectory | Some NameTooLong => None
  | Some (Directory perm) => if readable perm then Some (inr EISDIR) else None
  | Some (RegularFile perm data) => if readable perm then Some (inl data) else None
  end.

Definition os_Open (path : string) : M (option (string + oserror)) :=
  gets (fun w => open_file (fs w) path).

(** [os.Create(path)], that is [OpenFile(path, O_RDWR|O_CREATE|O_TRUNC,
    0666)], followed by the writes of [data] and the deferred [Close]: an
    existing file is opened for reading and writing, truncated, and keeps
    its permission bits; where the path leads to nothing a new file is made,
    if the host lets it, with [0666] less the umask. *)
Definition os_Create (env : Env) (path data : string) : M (option oserror) :=
  fun w =>
    let put perm :=
      (None, {| fs := <[path := RegularFile perm data]> (fs w);
                answers := answers w; trace := trace w |}) in
    match fs w !! path with
    | None =>
        match newfile_error env (fs w) path with
        | Some err => (Some err, w)
        | None => put (Z.ldiff 0x1B6 (umask env))
        end
    | Some (RegularFile perm _) =>
        if readable perm && writable perm then put perm else (Some EACCES, w)
    | Some (Directory _) => (Some EISDIR, w)
    | Some Inaccessible => (Some EACCES, w)
    | Some NotDirectory => (Some ENOTDIR, w)
    | Some NameTooLong => (Some ENAMETOOLONG, w)
    end.

(** ** Package [filepath] *)

(** [os.IsPathSeparator(c)]. *)
Definition os_IsPathSeparator (goos : string) (c : ascii) : bool :=
  (byte c =? 0x2F)%N || (String.eqb goos "windows" && (byte c =? 0x5C)%N).

(** The loop of [filepath.Ext], from the last byte backwards: [r] holds the
    bytes still to visit, in reverse, and [seen] the bytes passed. *)
Fixpoint ext_loop (goos : string) (r seen : string) : string :=
  match r with
  | EmptyString => EmptyString
  | String c r' =>
      if os_IsPathSeparator goos c then EmptyString
      else if (byte c =? 0x2E)%N then String c seen
      else ext_loop goos r' (String c seen)
  end.

(** [filepath.Ext(path)]. *)
Definition filepath_Ext (goos path : string) : string :=
  ext_loop goos (String.rev path) EmptyString.

(** ** [cmd/root.go]: configuration paths *)

Section Commands.

Variable env : Env.

(** [GetConfigDir]. *)
Definition GetConfigDir : string :=
  match UserHomeDir env with
  | None => EmptyString
  | Some home => filepath_Join env home ".berga"
  end.

(** [GetScriptsDir]. *)
Definition GetScriptsDir : string := filepath_Join env GetConfigDir "scripts".

(** [GetTemplatesDir]. *)
Definition GetTemplatesDir : string := filepath_Join env GetConfigDir "templates".

(** ** [cmd/root.go]: the [script] commands *)

(** The package variable [scriptTimeout] once the flags are parsed:
    [IntVar(&scriptTimeout, "timeout", 300, ...)] in [init] sets 300, and the
    value of [--timeout] replaces it when the flag is given. *)
Definition scriptTimeout : Z := default 300 (timeout_flag env).

(** Go's [int64] arithmetic keeps the low 64 bits. *)
Definition wrap64 (z : Z) : Z := (z + 2 ^ 63) mod 2 ^ 64 - 2 ^ 63.

(** [time.Second], in nanoseconds. *)
Definition time_Second : Z := 1000000000.

(** [time.Duration(n) * time.Second]. *)
Definition seconds (n : Z) : Z := wrap64 (n * time_Second).

(** [runScript], "Get timeout from config or flag". *)
Definition effectiveTimeout : Z :=
  let timeout := seconds scriptTimeout in
  let configTimeout := viper_GetInt env "scripts.timeout" in
  if 0 <? configTimeout then seconds configTimeout else timeout.

(** [isExecutable], over the files it looks at. *)
Definition isExecutable (files : gmap string node) (path : string) : bool :=
  match stat files path with
  | inr _ => false
  | inl info =>
      if String.eqb (GOOS env) "windows" then
        let ext := strings_ToLower (filepath_Ext (GOOS env) path) in
        String.eqb ext ".exe" || String.eqb ext ".bat"
        || String.eqb ext ".cmd" || String.eqb ext ".ps1"
      else
        negb (Z.land (Mode info) 0x49 (* 0111 *) =? 0)
  end.

(** The interpreter a first line names: the body of
    [if scanner.Scan() { ... }] in [getInterpreter]. *)
Definition shebangInterpreter (line : string) : string :=
  if strings_HasPrefix line "#!" then
    let shebang := strings_TrimSpace (slice_from 2 line) in
    let parts := strings_Fields shebang in
    match parts with
    | p :: _ => p
    | [] => EmptyString
    end
  else EmptyString.

(** [getInterpreter], over the files it looks at. *)
Definition getInterpreter (files : gmap string node) (scriptPath : string) : string :=
  match open_file files scriptPath with
  | None => EmptyString
  | Some (inr _) => EmptyString
  | Some (inl content) =>
      match scan_first_line content with
      | Some line => shebangInterpreter line
      | None => EmptyString
      end
  end.

(** [runScript], "Determine how to execute the script". *)
Definition scriptCommand (files : gmap string node) (scriptName scriptPath : string)
    (args : list string) : Cmd :=
  if String.eqb (GOOS env) "windows" then
    if strings_HasSuffix (strings_ToLower scriptName) ".ps1" then
      exec_Command "powershell" (["-File"; scriptPath] ++ args)
    else if strings_HasSuffix (strings_ToLower scriptName) ".bat"
            || strings_HasSuffix (strings_ToLower scriptName) ".cmd" then
      exec_Command "cmd" (["/C"; scriptPath] ++ args)
    else
      exec_Command scriptPath args
  else
    if isExecutable files scriptPath then
      exec_Command scriptPath args
    else
      let interpreter := getInterpreter files scriptPath in
      if negb (String.eqb interpreter EmptyString) then
        exec_Command interpreter ([scriptPath] ++ args)
      else
        exec_Command "sh" ([scriptPath] ++ args).

(** [runScript], "Execute with timeout": [cmd.Run()] in a goroutine raced
    against [time.After(timeout)].  Which of the two the [select] takes is
    told by [child_outlasts].  In the timer case the program calls
    [cmd.Process.Kill()]: on a started child that is a kill signal, whose
    result is dropped, as in the source, and the timed-out error is
    returned; where [cmd.Process] is still nil ([child_progress]) the call
    dereferences nil and the program panics, with [cmd.Run()] called or
    not. *)
Definition runWithTimeout (cmd : Cmd) (timeout : Z) (verbose : bool) : M outcome :=
  if child_outlasts env cmd timeout then
    match child_progress env cmd timeout with
    | NotCalled => ret Panics
    | Starting =>
        emit (Run cmd) ;;;
        ret Panics
    | Started =>
        emit (Run cmd) ;;;
        emit (Kill cmd) ;;;
        let _ := child_Kill env cmd in
        ret (Returns (Some (TimedOut timeout)))
    end
  else
    emit (Run cmd) ;;;
    match child_Run env cmd with
    | Some err => ret (Returns (Some (ExecutionFailed err)))
    | None =>
        when verbose (print MsgCompleted) ;;;
        ret (Returns None)
    end.

(** [runScript]. *)
Definition runScript (scriptName : string) (args : list string) : M outcome :=
  let scriptsDir := GetScriptsDir in
  let scriptPath := filepath_Join env scriptsDir scriptName in
  r <- os_Stat scriptPath ;;
  if notExist r then
    ret (Returns (Some (ScriptNotFound scriptName scriptsDir)))
  else
    let timeout := effectiveTimeout in
    let verbose := viper_GetBool env "verbose" || viper_GetBool env "scripts.verbose" in
    when verbose
      (print (MsgExecuting (scriptPath +:+ " " +:+ strings_Join args " ")) ;;;
       print (MsgTimeout timeout) ;;;
       print MsgOutputStarts) ;;;
    cmd <- gets (fun w => scriptCommand (fs w) scriptName scriptPath args) ;;
    runWithTimeout cmd timeout verbose.

(** [editScript], "Get editor from config". *)
Definition configuredEditor : string :=
  let editor := viper_GetString env "editor" in
  if String.eqb editor EmptyString then
    let editor := Getenv env "EDITOR" in
    let editor := if String.eqb editor EmptyString then Getenv env "VISUAL" else editor in
    if String.eqb editor EmptyString then
      if String.eqb (GOOS env) "windows" then "notepad" else "nano"
    else editor
  else editor.

(** [editScript]. *)
Definition editScript (scriptName : string) : M (option error) :=
  let scriptsDir := GetScriptsDir in
  let scriptPath := filepath_Join env scriptsDir scriptName in
  let editor := configuredEditor in
  print (MsgOpening scriptPath editor) ;;;
  let cmd := exec_Command editor [scriptPath] in
  emit (Run cmd) ;;;
  ret (ProcessError <$> child_Run env cmd).

(** [showScript]. *)
Definition showScript (scriptName : string) : M (option error) :=
  let scriptsDir := GetScriptsDir in
  let scriptPath := filepath_Join env scriptsDir scriptName in
  r <- os_Stat scriptPath ;;
  if notExist r then
    ret (Some (ScriptNotFound scriptName scriptsDir))
  else
    content <- os_ReadFile scriptPath ;;
    match content with
    | inr err => ret (Some (ReadScriptFailed err))
    | inl content =>
        print (MsgScriptHeader scriptPath) ;;;
        print (MsgRule (1 + (Z.of_nat (String.length scriptPath) + 8))) ;;;
        print (MsgContent content) ;;;
        ret None
    end.

(** ** [cmd/template.go]: applying a template *)

(** [strings.SplitN(input, "=", 2)] when it has two parts: the bytes before
    the first [=] and the bytes after it. *)
Fixpoint splitAssignment (input : string) : option (string * string) :=
  match input with
  | EmptyString => None
  | String c rest =>
      if (byte c =? 0x3D)%N then Some (EmptyString, rest)
      else match splitAssignment rest with
           | Some (key, value) => Some (String c key, value)
           | None => None
           end
  end.

(** [collectTemplateVars], the loop "Prompt for additional custom
    variables".  Each round that goes on takes one answer, and standard
    input without answers reads as the empty string, which ends the loop:
    [fuel] above the number of answers left is never used up. *)
Fixpoint additionalVars (fuel : nat) (vars : gmap string string) : M (gmap string string) :=
  match fuel with
  | O => ret vars
  | S fuel' =>
      input <- fmt_Scanln ;;
      if String.eqb input EmptyString then ret vars
      else
        let vars :=
          match splitAssignment input with
          | Some (key, value) => <[key := value]> vars
          | None => vars
          end in
        print (MsgPrompt "Additional variables (key=value, empty to finish): ") ;;;
        additionalVars fuel' vars
  end.

(** How [%s] prints the entry of [vars] under [key]. *)
Definition showVar (vars : gmap string string) (key : string) : string :=
  default "%!s(<nil>)" (vars !! key).

(** [collectTemplateVars].  The values of the map are strings throughout;
    a key without entry compares unequal to every string. *)
Definition collectTemplateVars : M (gmap string string) :=
  let vars : gmap string string := ∅ in
  let vars := <["Author" := viper_GetString env "templates.author"]> vars in
  let vars := <["Email" := viper_GetString env "templates.email"]> vars in
  let vars :=
    match Getwd env with
    | Some cwd =>
        <["ProjectName" := filepath_Base env cwd]>
          (<["CurrentDir" := filepath_Base env cwd]> vars)
    | None => vars
    end in
  print MsgVariablesHeader ;;;
  vars <-
    (if bool_decide (vars !! "ProjectName" = Some EmptyString)
        || bool_decide (vars !! "ProjectName" = Some ".") then
       print (MsgPrompt "Project Name: ") ;;;
       projectName <- fmt_Scanln ;;
       if negb (String.eqb projectName EmptyString)
       then ret (<["ProjectName" := projectName]> vars) else ret vars
     else
       print (MsgValue "Project Name" (showVar vars "ProjectName")) ;;;
       ret vars) ;;
  vars <-
    (if bool_decide (vars !! "Author" = Some EmptyString) then
       print (MsgPrompt "Author: ") ;;;
       author <- fmt_Scanln ;;
       if negb (String.eqb author EmptyString)
       then ret (<["Author" := author]> vars) else ret vars
     else
       print (MsgValue "Author" (showVar vars "Author")) ;;;
       ret vars) ;;
  print (MsgPrompt "Additional variables (key=value, empty to finish): ") ;;;
  pending <- gets (fun w => length (answers w)) ;;
  additionalVars (S pending) vars.

(** [applyTemplate], "Try to find template file with or without .tmpl
    extension", over the files it looks at: the path to use, or [None] for
    the not-found return. *)
Definition findTemplate (files : gmap string node) (templatesDir templateName : string)
  : option string :=
  let templatePath := filepath_Join env templatesDir templateName in
  if notExist (stat files templatePath) then
    let templatePath := filepath_Join env templatesDir (templateName +:+ ".tmpl") in
    if notExist (stat files templatePath) then None else Some templatePath
  else Some templatePath.

(** [applyTemplate], from "Read template content" on. *)
Definition renderTemplate (templateName templatePath outputFile : string)
  : M (option error) :=
  templateContent <- os_ReadFile templatePath ;;
  match templateContent with
  | inr err => ret (Some (ReadTemplateFailed err))
  | inl templateContent =>
      match template_Parse env templateName templateContent with
      | None => ret (Some (ParseTemplateFailed templateName))
      | Some tmpl =>
          vars <- collectTemplateVars ;;
          let (written, failure) := template_Execute env tmpl vars in
          created <- os_Create env outputFile written ;;
          match created with
          | Some err => ret (Some (CreateOutputFailed err))
          | None =>
              match failure with
              | Some err => ret (Some (ExecuteTemplateFailed err))
              | None =>
                  print (MsgApplied templateName outputFile) ;;;
                  ret None
              end
          end
      end
  end.

(** [applyTemplate], from "Check if output file already exists" on. *)
Definition applyFound (templateName templatePath outputFile : string)
  : M (option error) :=
  r <- os_Stat outputFile ;;
  match r with
  | inl _ =>
      print (MsgOverwrite outputFile) ;;;
      response <- fmt_Scanln ;;
      if negb (String.eqb (strings_ToLower response) "y")
         && negb (String.eqb (strings_ToLower response) "yes") then
        print MsgCancelled ;;;
        ret None
      else renderTemplate templateName templatePath outputFile
  | inr _ => renderTemplate templateName templatePath outputFile
  end.

(** [applyTemplate]. *)
Definition applyTemplate (templateName outputFile : string) : M (option error) :=
  let templatesDir := GetTemplatesDir in
  found <- gets (fun w => findTemplate (fs w) templatesDir templateName) ;;
  match found with
  | None => ret (Some (TemplateNotFound templateName templatesDir))
  | Some templatePath => applyFound templateName templatePath outputFile
  end.

End Commands.

(** ** The rest of the two files

    The functions of [cmd/root.go] and [cmd/template.go] beside the ones
    above: the size shown in listings, the two listings and the editing of a
    template. *)

(** [strings.Contains(s, substr)]. *)
Fixpoint strings_Contains (s substr : string) : bool :=
  strings_HasPrefix s substr
  || match s with
     | EmptyString => false
     | String _ s' => strings_Contains s' substr
     end.

(** [strings.TrimSuffix(s, suffix)]. *)
Definition strings_TrimSuffix (s suffix : string) : string :=
  if strings_HasSuffix s suffix
  then String.rev (slice_from (String.length suffix) (String.rev s))
  else s.

(** [strings.ToLower(s)] as far as the ASCII bytes of its result go: beside
    the letters [A] to [Z], the two runes outside ASCII whose lower case is
    an ASCII letter are lowered, U+0130 (bytes C4 B0) to [i] and U+212A
    (bytes E2 84 AA) to [k].  Every other byte stays; Go may rewrite those,
    but only into bytes of 0x80 and above, so that a search for an ASCII
    word in the result finds the same. *)
Fixpoint lowerToASCII (s : string) : string :=
  match s with
  | EmptyString => EmptyString
  | String c1 r1 =>
      let plain := String (lower_byte c1) (lowerToASCII r1) in
      match r1 with
      | EmptyString => plain
      | String c2 r2 =>
          if ((byte c1 =? 0xC4) && (byte c2 =? 0xB0))%N
          then String (ascii_of_N 0x69) (lowerToASCII r2)
          else match r2 with
               | EmptyString => plain
               | String c3 r3 =>
                   if ((byte c1 =? 0xE2) && (byte c2 =? 0x84) && (byte c3 =? 0xAA))%N
                   then String (ascii_of_N 0x6B) (lowerToASCII r3)
                   else plain
               end
      end
  end.

(** The nearest integer to [a / d], a tie going to the even one, for
    [0 <= a] and [0 < d]. *)
Definition roundHalfEven (a d : Z) : Z :=
  let q := a / d in
  let r := a mod d in
  if (d <? 2 * r) || ((d =? 2 * r) && Z.odd q) then q + 1 else q.

(** The value of [float64(n)] for an [int64] with [0 <= n]: [n] itself
    below [2^53], and beyond that [n] rounded to 53 significant bits, a tie
    going to the even mantissa.  The value is an integer. *)
Definition float64_of_int64 (n : Z) : Z :=
  if n <? 2 ^ 53 then n
  else let ulp := 2 ^ (Z.log2 n - 52) in roundHalfEven n ulp * ulp.

(** [fmt.Sprintf("%.1f", x)] for the [x] that is [tenths / 10]. *)
Definition formatTenths (tenths : Z) : string :=
  pretty (tenths / 10) +:+ "." +:+ pretty (tenths mod 10).

(** [humanizeSize].  Dividing a [float64] by 1024 or by 1024*1024 is exact,
    and [%.1f] prints the decimal of the exact quotient rounded to one
    place, a tie going to the even digit. *)
Definition humanizeSize (size : Z) : string :=
  if size <? 1024 then
    pretty size +:+ " B"
  else if size <? 1024 * 1024 then
    formatTenths (roundHalfEven (float64_of_int64 size * 10) 1024) +:+ " KB"
  else
    formatTenths (roundHalfEven (float64_of_int64 size * 10) (1024 * 1024)) +:+ " MB".

(** An [fs.DirEntry] of [os.ReadDir]: its name, whether it is a directory,
    and what [Info()] gives, the size and the modification time as
    [Format("2006-01-02 15:04")] prints it, or nothing when [Info()]
    fails. *)
Record DirEntry := {
  entryName : string;
  entryIsDir : bool;
  entryInfo : option (Z * string)
}.

(** The lines the two listings print. *)
Inductive listLine :=
| LineNoDirectory (dir : string)
| LineRunInit
| LineNothingFound
| LineAddTo (dir : string)
| LineTitle
| LineRule
| LineScript (executable : bool) (name size modified : string)
| LineTemplate (displayName size modified : string)
| LineDirectory (dir : string).


Section Listings.

Variable env : Env.

(** [os.ReadDir(dir)] on the files: the entries in the order it returns
    them, or its error. *)
Variable os_ReadDir : gmap string node -> string -> list DirEntry + oserror.

(** [filepath.Dir(path)]. *)
Variable filepath_Dir : string -> string.

(** [os.MkdirAll(dir, 0755)] on the files: the files after it, with the
    directories it has made, and its error, if it fails. *)
Variable os_MkdirAll : gmap string node -> string -> gmap string node * option oserror.

(** [listScripts], the body of the loop over the entries for one entry. *)
Definition scriptLine (files : gmap string node) (scriptsDir : string) (file : DirEntry)
  : list listLine :=
  if entryIsDir file then []
  else
    let name := entryName file in
    let path := filepath_Join env scriptsDir name in
    match entryInfo file with
    | None => []
    | Some (size, modified) =>
        [LineScript (isExecutable env files path) name (humanizeSize size) modified]
    end.

(** [listScripts], over the files it looks at: the lines printed and the
    error returned. *)
Definition listScripts (files : gmap string node) : list listLine * option oserror :=
  let scriptsDir := GetScriptsDir env in
  if notExist (stat files scriptsDir) then
    ([LineNoDirectory scriptsDir; LineRunInit], None)
  else
    match os_ReadDir files scriptsDir with
    | inr err => ([], Some err)
    | inl entries =>
        if (length entries =? 0)%nat then
          ([LineNothingFound; LineAddTo scriptsDir], None)
        else
          (([LineTitle; LineRule]
              ++ flat_map (scriptLine files scriptsDir) entries
              ++ [LineDirectory scriptsDir])%list, None)
    end.

(** [listTemplates], the body of the loop over the entries for one entry. *)
Definition templateLine (file : DirEntry) : list listLine :=
  if entryIsDir file then []
  else
    let name := entryName file in
    match entryInfo file with
    | None => []
    | Some (size, modified) =>
        let displayName :=
          if strings_HasSuffix name ".tmpl"
          then strings_TrimSuffix name ".tmpl" else name in
        [LineTemplate displayName (humanizeSize size) modified]
    end.

(** [listTemplates], over the files it looks at. *)
Definition listTemplates (files : gmap string node) : list listLine * option oserror :=
  let templatesDir := GetTemplatesDir env in
  if notExist (stat files templatesDir) then
    ([LineNoDirectory templatesDir; LineRunInit], None)
  else
    match os_ReadDir files templatesDir with
    | inr err => ([], Some err)
    | inl entries =>
        if (length entries =? 0)%nat then
          ([LineNothingFound; LineAddTo templatesDir], None)
        else
          (([LineTitle; LineRule]
              ++ flat_map templateLine entries
              ++ [LineDirectory templatesDir])%list, None)
    end.

(** [editTemplate], "Try to find template file with or without .tmpl
    extension": no not-found return here. *)
Definition templatePathToEdit (files : gmap string node) (templateName : string) : string :=
  let templatesDir := GetTemplatesDir env in
  let templatePath := filepath_Join env templatesDir templateName in
  if notExist (stat files templatePath)
  then filepath_Join env templatesDir (templateName +:+ ".tmpl")
  else templatePath.

(** [editTemplate], "Get editor from config": the platform is told from the
    environment variable [OS], not from [runtime.GOOS]. *)
Definition templateEditor : string :=
  let editor := viper_GetString env "editor" in
  if String.eqb editor EmptyString then
    let editor := Getenv env "EDITOR" in
    let editor := if String.eqb editor EmptyString then Getenv env "VISUAL" else editor in
    if String.eqb editor EmptyString then
      if strings_Contains (lowerToASCII (Getenv env "OS")) "windows"
      then "notepad" else "nano"
    else editor
  else editor.


End Listings.

(** ** Vocabulary of the statements

    Notions the properties below are stated with; none of them is part of
    the program. *)

(** The commands launched so far. *)
Definition launched (w : World) : list Cmd :=
  omap (fun e => match e with Run c => Some c | _ => None end) (trace w).

(** The world [w] after the events [es]. *)
Definition after (w : World) (es : list event) : World :=
  {| fs := fs w; answers := answers w; trace := trace w ++ es |}.

(** What a run prints before it launches the child: nothing unless one of
    the settings [verbose] and [scripts.verbose] is on. *)
Definition announcement (env : Env) (scriptPath : string) (args : list string)
  : list event :=
  if viper_GetBool env "verbose" || viper_GetBool env "scripts.verbose" then
    [Output (MsgExecuting (scriptPath +:+ " " +:+ strings_Join args " "));
     Output (MsgTimeout (effectiveTimeout env));
     Output MsgOutputStarts]
  else [].

(** The timer wins the select before [cmd.Run()] is called. *)
Definition unlaunched (env : Env) (cmd : Cmd) (timeout : Z) : bool :=
  child_outlasts env cmd timeout
  && match child_progress env cmd timeout with
     | NotCalled => true
     | Starting | Started => false
     end.

(** No file is behind [path]: it leads to nothing, runs through a file that
    is no directory, or has a name too long to be that of a file. *)
Definition noFile (files : gmap string node) (path : string) : bool :=
  match files !! path with
  | None | Some NotDirectory | Some NameTooLong => true
  | Some (RegularFile _ _) | Some (Directory _) | Some Inaccessible => false
  end.

(** The world once [apply] has asked, read one answer and cancelled. *)
Definition cancelled (w : World) (output : string) : World :=
  {| fs := fs w; answers := tl (answers w);
     trace := trace w ++ [Output (MsgOverwrite output); Output MsgCancelled] |}.

Definition LF : ascii := ascii_of_N 0x0A.

(** The first line of the file at [path], as [getInterpreter] gets to read
    it: none when the file cannot be opened or read, is empty, or has a
    first line that outgrows the scanner. *)
Definition firstLine (files : gmap string node) (path : string) : option string :=
  match open_file files path with
  | Some (inl content) => scan_first_line content
  | _ => None
  end.

(** [name] ends in [ext] when ASCII letters are compared without regard to
    case ([ext] itself being in lower case). *)
Definition endsWithFold (name ext : string) : Prop :=
  exists stem tail, name = stem +:+ tail /\ strings_ToLower tail = ext.

(** The precedence as the spec words it: a flag that is given, else the
    setting when it is positive, else 300 seconds. *)
Definition flagFirstTimeout (env : Env) : Z :=
  match timeout_flag env with
  | Some given => seconds given
  | None =>
      let configured := viper_GetInt env "scripts.timeout" in
      if 0 <? configured then seconds configured else seconds 300
  end.

(** An ASCII byte other than white space. *)
Definition solid (c : ascii) : bool :=
  (byte c <? 0x80)%N && negb (asciiSpace (byte c)).

(** An ASCII white-space byte. *)
Definition blank (c : ascii) : bool := asciiSpace (byte c).

Fixpoint every (p : ascii -> bool) (s : string) : bool :=
  match s with
  | EmptyString => true
  | String c s' => p c && every p s'
  end.

(** [s] is empty or starts with an ASCII white-space byte. *)
Definition endsToken (s : string) : bool :=
  match s with
  | EmptyString => true
  | String c _ => blank c
  end.

(** The full stop. *)
Definition DOT : ascii := ascii_of_N 0x2E.

(** A byte that is neither a path separator nor a full stop. *)
Definition plainByte (goos : string) (c : ascii) : bool :=
  negb (os_IsPathSeparator goos c) && negb (byte c =? 0x2E)%N.

(** The sign of equality. *)
Definition EQUALS : ascii := ascii_of_N 0x3D.

(** One answer of the loop over the additional variables taken in: an
    assignment sets its key, anything else changes nothing. *)
Definition assign (vars : gmap string string) (input : string) : gmap string string :=
  match splitAssignment input with
  | Some (key, value) => <[key := value]> vars
  | None => vars
  end.

(** The prompt of the loop over the additional variables. *)
Definition morePrompt : event :=
  Output (MsgPrompt "Additional variables (key=value, empty to finish): ").

(** [w'] differs from [w] by what was printed and read at most: the files
    and the commands launched are the same. *)
Definition quiet (w w' : World) : Prop :=
  fs w' = fs w /\ launched w' = launched w.

(** [w'] differs from [w] at the path [output] at most, beside what was
    printed and read: every other path leads to what it led to, and the
    commands launched are the same. *)
Definition touchesOnly (output : string) (w w' : World) : Prop :=
  (forall p, p <> output -> fs w' !! p = fs w !! p) /\ launched w' = launched w.

(** ** Example hosts

    Concrete environments and worlds on which the statements below are
    exercised. *)

(** A host whose platform is [goos], with [--timeout] as given in [flag] and
    the setting [scripts.timeout] read as [configured]; [slow] tells whether
    children outlast every timer, and [killfails] whether killing them
    fails.  A timer of no length wins before [cmd.Run()] is called, any
    other one finds the child started.  New files can be made in the working
    directory, which has no subdirectory.  No editor is configured, the
    template engine copies its text. *)
Definition exampleEnv (goos : string) (flag : option Z) (configured : Z)
    (slow killfails : bool) : Env :=
  {| GOOS := goos;
     UserHomeDir :=
       Some (if String.eqb goos "windows" then "C:\Users\u" else "/home/u");
     Getwd :=
       Some (if String.eqb goos "windows" then "C:\Users\u\work" else "/home/u/work");
     Getenv := fun _ => EmptyString;
     filepath_Join := fun dir name =>
       dir +:+ (if String.eqb goos "windows" then "\" else "/") +:+ name;
     filepath_Base := fun _ => "work";
     umask := 0x12;
     newfile_error := fun _ path =>
       if negb (String.eqb path EmptyString)
          && every (fun c => negb (os_IsPathSeparator goos c)) path
       then None else Some ENOENT;
     viper_GetInt := fun key =>
       if String.eqb key "scripts.timeout" then configured else 0;
     viper_GetBool := fun _ => false;
     viper_GetString := fun _ => EmptyString;
     timeout_flag := flag;
     template_Parse := fun _ text => Some text;
     template_Execute := fun text _ => (text, None);
     child_Run := fun _ => None;
     child_outlasts := fun _ _ => slow;
     child_progress := fun _ timeout => if timeout <=? 0 then NotCalled else Started;
     child_Kill := fun _ =>
       if killfails then Some "os: process already finished" else None |}.

Definition linuxEnv : Env := exampleEnv "linux" None 0 false false.
Definition windowsEnv : Env := exampleEnv "windows" None 0 false false.

(** A world with the given files, nothing on standard input but [input],
    and no event yet. *)
Definition exampleWorld (files : list (string * node)) (input : list string) : World :=
  {| fs := list_to_map files; answers := input; trace := [] |}.

(** [berga script run --timeout 10 ...] with [scripts.timeout: 60] in the
    configuration file. *)
Definition flagAndConfigEnv : Env := exampleEnv "linux" (Some 10) 60 false false.

(** A one-second run of an endless script whose kill fails. *)
Definition impatientEnv : Env := exampleEnv "linux" (Some 1) 0 true true.

Definition loopWorld : World :=
  exampleWorld
    [("/home/u/.berga/scripts/loop.sh",
      RegularFile 0x1ED (* 0755 *) "while true; do :; done")] [].

(** [berga template apply readme.md out.md], answered [n], with [out.md]
    already there. *)
Definition declineWorld : World :=
  exampleWorld
    [("/home/u/.berga/templates/readme.md.tmpl",
      RegularFile 0x1A4 (* 0644 *) "# {{.ProjectName}}");
     ("out.md", RegularFile 0x1A4 "keep me")]
    ["n"].

Definition pythonScript : string :=
  "#!/usr/bin/env python3" +:+ String LF ("print('hi')" +:+ String LF EmptyString).

Definition pythonFiles : gmap string node :=
  {[ "/home/u/.berga/scripts/tool.py" := RegularFile 0x1A4 (* 0644 *) pythonScript ]}.

(** Three scripts: one with the execute bits set, one without them that
    names [/bin/bash], one without them and without a shebang line. *)
Definition posixFiles : gmap string node :=
  {[ "/home/u/.berga/scripts/deploy" :=
       RegularFile 0x1ED (* 0755 *) ("#!/bin/sh" +:+ String LF "make deploy");
     "/home/u/.berga/scripts/build.sh" :=
       RegularFile 0x1A4 (* 0644 *) ("#! /bin/bash -e" +:+ String LF "make");
     "/home/u/.berga/scripts/notes" :=
       RegularFile 0x1A4 ("echo notes" +:+ String LF EmptyString) ]}.

(** [berga script run DEPLOY.BAT now] on Windows. *)
Definition upperCaseBatch : string := "DEPLOY.BAT".

(** A Perl script saved with Windows line endings. *)
Definition perlScript : string :=
  "#! /usr/bin/perl -w" +:+ String (ascii_of_N 13) (String LF "print 1;").

Definition perlFiles : gmap string node :=
  {[ "/home/u/.berga/scripts/report.pl" := RegularFile 0x1A4 (* 0644 *) perlScript ]}.

(** [berga script run --timeout 0 nap.sh], with no [scripts.timeout]
    set. *)
Definition zeroTimeoutEnv : Env := exampleEnv "linux" (Some 0) 0 true false.

(** A script that sleeps for ten minutes. *)
Definition napWorld : World :=
  exampleWorld
    [("/home/u/.berga/scripts/nap.sh",
      RegularFile 0x1ED (* 0755 *) ("#!/bin/sh" +:+ String LF "sleep 600"))] [].

(** A scripts directory with a regular file [notes]: the path [notes/x]
    runs through a file that is no directory. *)
Definition nestedWorld : World :=
  exampleWorld
    [("/home/u/.berga/scripts/notes",
      RegularFile 0x1A4 (* 0644 *) ("echo notes" +:+ String LF EmptyString));
     ("/home/u/.berga/scripts/notes/x", NotDirectory)] [].

(** A templates directory with a regular file [plain], and no [out.txt]
    in the working directory. *)
Definition nestedTemplates : World :=
  exampleWorld
    [("/home/u/.berga/templates/plain", RegularFile 0x1A4 (* 0644 *) "plain text");
     ("/home/u/.berga/templates/plain/sub", NotDirectory);
     ("/home/u/.berga/templates/plain/sub.tmpl", NotDirectory)] [].

(** The scripts directory of [posixFiles], with a subdirectory, as
    [os.ReadDir] gives it. *)
Definition listedFiles : gmap string node :=
  <["/home/u/.berga/scripts" := Directory 0x1ED]>
    (<["/home/u/.berga/scripts/old" := Directory 0x1ED]> posixFiles).

Definition listedEntries : list DirEntry :=
  [ {| entryName := "build.sh"; entryIsDir := false;
       entryInfo := Some (20, "2025-08-21 10:00") |};
    {| entryName := "deploy"; entryIsDir := false;
       entryInfo := Some (21, "2025-08-21 10:05") |};
    {| entryName := "notes"; entryIsDir := false;
       entryInfo := Some (11, "2025-08-22 09:30") |};
    {| entryName := "old"; entryIsDir := true;
       entryInfo := Some (4096, "2025-08-20 08:00") |} ].

(** A scripts directory that holds one subdirectory and nothing else. *)
Definition bareFiles : gmap string node :=
  {[ "/home/u/.berga/scripts" := Directory 0x1ED;
     "/home/u/.berga/scripts/old" := Directory 0x1ED ]}.

Definition bareEntries : list DirEntry :=
  [ {| entryName := "old"; entryIsDir := true;
       entryInfo := Some (4096, "2025-08-20 08:00") |} ].

(** A templates directory with one template. *)
Definition templateFiles : gmap string node :=
  {[ "/home/u/.berga/templates" := Directory 0x1ED;
     "/home/u/.berga/templates/readme.md.tmpl" :=
       RegularFile 0x1A4 (* 0644 *) "# {{.ProjectName}}" ]}.

Definition templateEntries : list DirEntry :=
  [ {| entryName := "readme.md.tmpl"; entryIsDir := false;
       entryInfo := Some (18, "2025-08-21 10:00") |} ].

(** An [os.ReadDir] that gives [entries] for every directory. *)
Definition readsAs (entries : list DirEntry)
  : gmap string node -> string -> list DirEntry + oserror :=
  fun _ _ => inl entries.




(** [berga template apply readme.md out.md] answered [YES], with [out.md]
    there and open to writing, and then nothing more on standard input. *)
Definition acceptWorld : World :=
  {| fs := <["out.md" := RegularFile 0x180 (* 0600 *) "old"]> templateFiles;
     answers := ["YES"]; trace := [] |}.

(** Computations that print and read at most. *)
Definition Quiet {A} (m : M A) : Prop := forall w, quiet w (snd (m w)).

(** Computations that change no file but [output], and launch nothing. *)
Definition Touches {A} (output : string) (m : M A) : Prop :=
  forall w, touchesOnly output w (snd (m w)).

(** A Linux host on which the variable [OS] reads [Windows_NT], with no
    editor configured. *)
Definition mixedEnv : Env :=
  {| GOOS := "linux";
     UserHomeDir := Some "/home/u";
     Getwd := Some "/home/u/work";
     Getenv := fun key => if String.eqb key "OS" then "Windows_NT" else EmptyString;
     filepath_Join := fun dir name => dir +:+ "/" +:+ name;
     filepath_Base := fun _ => "work";
     umask := 0x12;
     newfile_error := fun _ _ => None;
     viper_GetInt := fun _ => 0;
     viper_GetBool := fun _ => false;
     viper_GetString := fun _ => EmptyString;
     timeout_flag := None;
     template_Parse := fun _ text => Some text;
     template_Execute := fun text _ => (text, None);
     child_Run := fun _ => None;
     child_outlasts := fun _ _ => false;
     child_progress := fun _ _ => Started;
     child_Kill := fun _ => None |}.

(** * Properties *)

(** ** Facts about the string functions *)

Lemma append_nil_l (s : string) : EmptyString +:+ s = s.
Proof. reflexivity. Qed.

Lemma append_cons (c : ascii) (a b : string) :
  String c a +:+ b = String c (a +:+ b).
Proof. reflexivity. Qed.

Lemma append_nil_r (s : string) : s +:+ EmptyString = s.
Proof.
  induction s as [|c s IH]; [reflexivity|]. now rewrite append_cons, IH.
Qed.

Lemma append_assoc (a b c : string) : (a +:+ b) +:+ c = a +:+ (b +:+ c).
Proof.
  induction a as [|x a IH]; [reflexivity|]. now rewrite !append_cons, IH.
Qed.

Lemma rev_app_append (s acc : string) :
  String.rev_app s acc = String.rev s +:+ acc.
Proof.
  unfold String.rev. revert acc.
  induction s as [|c s IH]; intros acc; simpl; [reflexivity|].
  rewrite (IH (String c acc)), (IH (String c EmptyString)), append_assoc. reflexivity.
Qed.

Lemma rev_cons (c : ascii) (s : string) :
  String.rev (String c s) = String.rev s +:+ String c EmptyString.
Proof. unfold String.rev at 1. simpl. apply rev_app_append. Qed.

Lemma rev_append (a b : string) :
  String.rev (a +:+ b) = String.rev b +:+ String.rev a.
Proof.
  induction a as [|c a IH].
  - now rewrite append_nil_l, append_nil_r.
  - now rewrite append_cons, !rev_cons, IH, append_assoc.
Qed.

Lemma rev_involutive (s : string) : String.rev (String.rev s) = s.
Proof.
  induction s as [|c s IH]; [reflexivity|].
  now rewrite rev_cons, rev_append, IH.
Qed.

Lemma rev_nonempty (s : string) : s <> EmptyString -> String.rev s <> EmptyString.
Proof.
  intros Hs Hrev. apply Hs. rewrite <- (rev_involutive s), Hrev. reflexivity.
Qed.

(** [HasPrefix] holds exactly of the strings that start with the prefix. *)
Lemma HasPrefix_spec (s prefix : string) :
  strings_HasPrefix s prefix = true <-> exists rest, s = prefix +:+ rest.
Proof.
  revert s. induction prefix as [|p prefix IH]; intros s; simpl.
  - split; [intros _; now exists s | reflexivity].
  - destruct s as [|c s].
    + split; [discriminate | intros [rest H]; discriminate].
    + rewrite andb_true_iff, IH. split.
      * intros [Hc [rest ->]]. apply Ascii.eqb_eq in Hc. subst. now exists rest.
      * intros [rest H]. rewrite append_cons in H. injection H as -> ->.
        split; [apply Ascii.eqb_refl | now exists rest].
Qed.

(** [HasSuffix] holds exactly of the strings that end with the suffix. *)
Lemma HasSuffix_spec (s suffix : string) :
  strings_HasSuffix s suffix = true <-> exists stem, s = stem +:+ suffix.
Proof.
  unfold strings_HasSuffix. rewrite HasPrefix_spec. split.
  - intros [rest H]. exists (String.rev rest).
    rewrite <- (rev_involutive s), H, rev_append, rev_involutive. reflexivity.
  - intros [stem ->]. exists (String.rev stem). apply rev_append.
Qed.

Lemma ToLower_append (a b : string) :
  strings_ToLower (a +:+ b) = strings_ToLower a +:+ strings_ToLower b.
Proof.
  induction a as [|c a IH]; [reflexivity|].
  rewrite append_cons. simpl. now rewrite IH.
Qed.

(** A lowered string that splits in two comes from a string that splits
    the same way. *)
Lemma ToLower_split (s x y : string) :
  strings_ToLower s = x +:+ y ->
  exists a b, s = a +:+ b /\ strings_ToLower a = x /\ strings_ToLower b = y.
Proof.
  revert s. induction x as [|c x IH]; intros s H.
  - exists EmptyString, s. auto.
  - destruct s as [|d s]; [discriminate|].
    rewrite append_cons in H. simpl in H. injection H as Hc Hs.
    destruct (IH s Hs) as (a & b & -> & Ha & Hb).
    exists (String d a), b. simpl. now rewrite Hc, Ha, Hb.
Qed.

Lemma HasSuffix_ToLower (name ext : string) :
  strings_HasSuffix (strings_ToLower name) ext = true <-> endsWithFold name ext.
Proof.
  rewrite HasSuffix_spec. unfold endsWithFold. split.
  - intros [stem H]. apply ToLower_split in H. destruct H as (a & b & -> & _ & Hb).
    now exists a, b.
  - intros (stem & tail & -> & Htail).
    exists (strings_ToLower stem). now rewrite ToLower_append, Htail.
Qed.

Lemma fields_loop_cons (skip : nat) (cur : option string) (c : ascii) (s : string) :
  fields_loop skip cur (String c s) =
    match skip with
    | S k => fields_loop k None s
    | O => match space_width (String c s) with
           | S k => match cur with
                    | Some f => String.rev f :: fields_loop k None s
                    | None => fields_loop k None s
                    end
           | O => fields_loop 0 (Some (String c (default EmptyString cur))) s
           end
    end.
Proof. reflexivity. Qed.

(** Every field is nonempty. *)
Lemma fields_loop_nonempty (s : string) :
  forall skip cur field,
    (forall c, cur = Some c -> c <> EmptyString) ->
    In field (fields_loop skip cur s) -> field <> EmptyString.
Proof.
  induction s as [|c s IH]; intros skip cur field Hcur Hin.
  - simpl in Hin. destruct cur as [f|]; simpl in Hin; [|contradiction].
    destruct Hin as [<-|[]]. apply rev_nonempty. now apply Hcur.
  - rewrite fields_loop_cons in Hin. destruct skip as [|k].
    + destruct (space_width (String c s)) as [|k].
      * apply (IH 0%nat (Some (String c (default EmptyString cur))) field); [|exact Hin].
        intros f [= <-]. discriminate.
      * destruct cur as [f|].
        -- destruct Hin as [<-|Hin]; [apply rev_nonempty; now apply Hcur|].
           apply (IH k None field); [discriminate | exact Hin].
        -- apply (IH k None field); [discriminate | exact Hin].
    + apply (IH k None field); [discriminate | exact Hin].
Qed.

Lemma Fields_nonempty (s field : string) :
  In field (strings_Fields s) -> field <> EmptyString.
Proof. apply fields_loop_nonempty. discriminate. Qed.

(** The first line of a file that starts with [line] and a line feed is
    [line], as long as [line] holds no line feed, does not end in a carriage
    return and fits the scanner's buffer. *)
Lemma before_newline_line (line rest : string) :
  before_newline line = line ->
  before_newline (line +:+ String LF rest) = line.
Proof.
  induction line as [|c line IH]; intros Hline.
  - reflexivity.
  - rewrite append_cons. simpl in *.
    destruct (byte c =? 10)%N; [discriminate|].
    injection Hline as Hline. now rewrite IH.
Qed.

Lemma scan_first_line_line (line rest : string) :
  before_newline line = line ->
  dropCR line = line ->
  (N.of_nat (String.length line) < MaxScanTokenSize)%N ->
  scan_first_line (line +:+ String LF rest) = Some line.
Proof.
  intros Hline Hcr Hfits. unfold scan_first_line.
  destruct (line +:+ String LF rest) as [|c data] eqn:Hdata.
  { destruct line; discriminate. }
  rewrite <- Hdata, before_newline_line by exact Hline.
  apply N.ltb_lt in Hfits. now rewrite Hfits, Hcr.
Qed.

(** ** The first token after the marker *)

Lemma solid_not_space2 (c : ascii) (b : N) :
  solid c = true -> space2 (byte c) b = false /\ space2 b (byte c) = false.
Proof.
  unfold solid, space2. intros H. apply andb_true_iff in H. destruct H as [H _].
  apply N.ltb_lt in H. split.
  - apply andb_false_iff. left. apply N.eqb_neq. lia.
  - apply andb_false_iff. right. apply orb_false_iff.
    split; apply N.eqb_neq; lia.
Qed.

Lemma solid_not_space3 (c : ascii) (b b' : N) :
  solid c = true ->
  space3 (byte c) b b' = false /\ space3 b (byte c) b' = false
  /\ space3 b b' (byte c) = false.
Proof.
  unfold solid, space3. intros H. apply andb_true_iff in H. destruct H as [H _].
  apply N.ltb_lt in H.
  assert (H1 : (byte c =? 0xE1)%N = false) by (apply N.eqb_neq; lia).
  assert (H2 : (byte c =? 0xE2)%N = false) by (apply N.eqb_neq; lia).
  assert (H3 : (byte c =? 0xE3)%N = false) by (apply N.eqb_neq; lia).
  assert (H4 : (byte c =? 0x9A)%N = false) by (apply N.eqb_neq; lia).
  assert (H5 : (byte c =? 0x80)%N = false) by (apply N.eqb_neq; lia).
  assert (H6 : (byte c =? 0x81)%N = false) by (apply N.eqb_neq; lia).
  assert (H7 : (byte c =? 0x9F)%N = false) by (apply N.eqb_neq; lia).
  assert (H8 : (0x80 <=? byte c)%N = false) by (apply N.leb_gt; lia).
  assert (H9 : (byte c =? 0xA8)%N = false) by (apply N.eqb_neq; lia).
  assert (H10 : (byte c =? 0xA9)%N = false) by (apply N.eqb_neq; lia).
  assert (H11 : (byte c =? 0xAF)%N = false) by (apply N.eqb_neq; lia).
  rewrite ?H1, ?H2, ?H3, ?H4, ?H5, ?H6, ?H7, ?H8, ?H9, ?H10, ?H11.
  repeat split; simpl; rewrite ?andb_false_r; reflexivity.
Qed.

Lemma solid_not_blank (c : ascii) : solid c = true -> asciiSpace (byte c) = false.
Proof.
  unfold solid. intros H. apply andb_true_iff in H. destruct H as [_ H].
  now apply negb_true_iff in H.
Qed.

(** No white-space rune starts at a solid byte. *)
Lemma space_width_solid (c : ascii) (s : string) :
  solid c = true -> space_width (String c s) = 0%nat.
Proof.
  intros Hc. unfold space_width. rewrite (solid_not_blank c Hc).
  destruct s as [|c2 s]; [reflexivity|].
  rewrite (proj1 (solid_not_space2 c (byte c2) Hc)).
  destruct s as [|c3 s]; [reflexivity|].
  now rewrite (proj1 (solid_not_space3 c (byte c2) (byte c3) Hc)).
Qed.

(** Reading backwards, no white-space rune ends at a solid byte. *)
Lemma space_width_rev_solid (c : ascii) (s : string) :
  solid c = true -> space_width_rev (String c s) = 0%nat.
Proof.
  intros Hc. unfold space_width_rev. rewrite (solid_not_blank c Hc).
  destruct s as [|c2 s]; [reflexivity|].
  rewrite (proj2 (solid_not_space2 c (byte c2) Hc)).
  destruct s as [|c3 s]; [reflexivity|].
  now rewrite (proj2 (proj2 (solid_not_space3 c (byte c3) (byte c2) Hc))).
Qed.

Lemma trim_head_cons (width : string -> nat) (skip : nat) (c : ascii) (s : string) :
  trim_head width skip (String c s) =
    match skip with
    | S k => trim_head width k s
    | O => match width (String c s) with
           | S k => trim_head width k s
           | O => String c s
           end
    end.
Proof. reflexivity. Qed.

(** Leading ASCII white space goes. *)
Lemma trim_head_blanks (pre s : string) :
  every blank pre = true ->
  trim_head space_width 0 (pre +:+ s) = trim_head space_width 0 s.
Proof.
  induction pre as [|c pre IH]; intros Hpre; [reflexivity|].
  simpl in Hpre. apply andb_true_iff in Hpre. destruct Hpre as [Hc Hpre].
  rewrite append_cons, trim_head_cons.
  unfold space_width. unfold blank in Hc. rewrite Hc. now apply IH.
Qed.

(** Trimming stops at a solid byte. *)
Lemma trim_head_solid (c : ascii) (s : string) :
  solid c = true -> trim_head space_width 0 (String c s) = String c s.
Proof. intros Hc. now rewrite trim_head_cons, space_width_solid. Qed.

(** Reading backwards, a white-space rune that ends before a solid byte
    lies before it entirely. *)
Lemma space_width_rev_within (a c : ascii) (r t : string) (k : nat) :
  solid c = true ->
  space_width_rev (String a (r +:+ String c t)) = S k ->
  (k <= String.length r)%nat.
Proof.
  intros Hc. unfold space_width_rev.
  destruct (asciiSpace (byte a)); [intros [= <-]; lia|].
  destruct r as [|c2 r].
  - rewrite append_nil_l.
    rewrite (proj1 (solid_not_space2 c (byte a) Hc)).
    destruct t as [|c3 t]; [discriminate|].
    rewrite (proj1 (proj2 (solid_not_space3 c (byte c3) (byte a) Hc))).
    discriminate.
  - rewrite append_cons.
    destruct (space2 (byte c2) (byte a)); [intros [= <-]; simpl; lia|].
    destruct r as [|c3 r].
    + rewrite append_nil_l.
      rewrite (proj1 (solid_not_space3 c (byte c2) (byte a) Hc)). discriminate.
    + rewrite append_cons.
      destruct (space3 (byte c3) (byte c2) (byte a)); [|discriminate].
      intros [= <-]. simpl. lia.
Qed.

(** Trimming from the end stops before a solid byte: of [r], read
    backwards, a part goes and the rest stays. *)
Lemma trim_rev_keeps (r : string) :
  forall (skip : nat) (c : ascii) (t : string),
    solid c = true ->
    (skip <= String.length r)%nat ->
    exists gone kept,
      r = gone +:+ kept
      /\ trim_head space_width_rev skip (r +:+ String c t) = kept +:+ String c t.
Proof.
  induction r as [|a r IH]; intros skip c t Hc Hskip.
  - simpl in Hskip. assert (skip = 0%nat) as -> by lia.
    exists EmptyString, EmptyString. split; [reflexivity|].
    rewrite !append_nil_l, trim_head_cons. now rewrite space_width_rev_solid.
  - rewrite append_cons, trim_head_cons. destruct skip as [|k].
    + destruct (space_width_rev (String a (r +:+ String c t))) as [|k] eqn:Hwidth.
      * exists EmptyString, (String a r). split; reflexivity.
      * apply space_width_rev_within in Hwidth; [|exact Hc].
        destruct (IH k c t Hc Hwidth) as (gone & kept & -> & Htrim).
        exists (String a gone), kept. split; [reflexivity | exact Htrim].
    + simpl in Hskip.
      destruct (IH k c t Hc ltac:(lia)) as (gone & kept & -> & Htrim).
      exists (String a gone), kept. split; [reflexivity | exact Htrim].
Qed.

Lemma every_append (p : ascii -> bool) (a b : string) :
  every p (a +:+ b) = every p a && every p b.
Proof.
  induction a as [|c a IH]; [reflexivity|].
  rewrite append_cons. simpl. now rewrite IH, andb_assoc.
Qed.

Lemma every_rev (p : ascii -> bool) (s : string) : every p (String.rev s) = every p s.
Proof.
  induction s as [|c s IH]; [reflexivity|].
  rewrite rev_cons, every_append, IH. simpl. rewrite andb_true_r. apply andb_comm.
Qed.

(** Around a token of solid bytes, [TrimSpace] takes nothing from the token
    and leaves a prefix of what follows it. *)
Lemma TrimSpace_token (tok tail : string) :
  tok <> EmptyString ->
  every solid tok = true ->
  exists kept gone,
    tail = kept +:+ gone /\ strings_TrimSpace (tok +:+ tail) = tok +:+ kept.
Proof.
  intros Hne Hsolid. unfold strings_TrimSpace.
  destruct tok as [|c tok]; [contradiction|].
  assert (Hc : solid c = true) by (simpl in Hsolid; now apply andb_true_iff in Hsolid).
  rewrite append_cons, trim_head_solid by exact Hc.
  rewrite <- append_cons, rev_append.
  destruct (String.rev (String c tok)) as [|d back] eqn:Hback.
  { apply (f_equal String.rev) in Hback. rewrite rev_involutive in Hback. discriminate. }
  assert (Hd : solid d = true).
  { rewrite <- every_rev, Hback in Hsolid. simpl in Hsolid.
    now apply andb_true_iff in Hsolid. }
  destruct (trim_rev_keeps (String.rev tail) 0 d back Hd ltac:(lia))
    as (gone & kept & Hsplit & ->).
  exists (String.rev kept), (String.rev gone). split.
  - rewrite <- rev_append, <- Hsplit. symmetry. apply rev_involutive.
  - rewrite rev_append, <- Hback, rev_involutive. reflexivity.
Qed.

(** Solid bytes are gathered into the field being read. *)
Lemma fields_loop_solid (tok : string) :
  forall (acc rest : string),
    every solid tok = true ->
    fields_loop 0 (Some acc) (tok +:+ rest)
    = fields_loop 0 (Some (String.rev tok +:+ acc)) rest.
Proof.
  induction tok as [|c tok IH]; intros acc rest Hsolid; [reflexivity|].
  simpl in Hsolid. apply andb_true_iff in Hsolid. destruct Hsolid as [Hc Hsolid].
  rewrite append_cons, fields_loop_cons, space_width_solid by exact Hc.
  simpl default. rewrite IH by exact Hsolid.
  now rewrite rev_cons, append_assoc.
Qed.

(** A token of solid bytes that starts the string and is followed by
    nothing or by ASCII white space is the first field. *)
Lemma Fields_token (tok rest : string) :
  tok <> EmptyString ->
  every solid tok = true ->
  endsToken rest = true ->
  exists more, strings_Fields (tok +:+ rest) = tok :: more.
Proof.
  intros Hne Hsolid Hends. unfold strings_Fields.
  destruct tok as [|c tok]; [contradiction|].
  simpl in Hsolid. apply andb_true_iff in Hsolid. destruct Hsolid as [Hc Hsolid].
  rewrite append_cons, fields_loop_cons, space_width_solid by exact Hc.
  simpl default. rewrite fields_loop_solid by exact Hsolid.
  rewrite <- rev_cons.
  destruct rest as [|b rest].
  - exists []. simpl. now rewrite rev_involutive.
  - simpl in Hends. unfold blank in Hends.
    rewrite fields_loop_cons. unfold space_width. rewrite Hends.
    rewrite rev_involutive. eauto.
Qed.

Lemma getInterpreter_firstLine (files : gmap string node) (path : string) :
  getInterpreter files path =
    match firstLine files path with
    | Some line => shebangInterpreter line
    | None => EmptyString
    end.
Proof.
  unfold getInterpreter, firstLine.
  destruct (open_file files path) as [[content|err]|]; reflexivity.
Qed.

(** After the marker, the first white-space-delimited token is what
    [shebangInterpreter] gives; it is never empty. *)
Lemma shebangInterpreter_token (rest interpreter : string) (more : list string) :
  strings_Fields (strings_TrimSpace rest) = interpreter :: more ->
  shebangInterpreter ("#!" +:+ rest) = interpreter /\ interpreter <> EmptyString.
Proof.
  intros Hfields. split.
  - unfold shebangInterpreter. rewrite !append_cons, append_nil_l. simpl.
    now rewrite Hfields.
  - apply (Fields_nonempty (strings_TrimSpace rest)). rewrite Hfields. now left.
Qed.

Lemma shebangInterpreter_none (line : string) :
  strings_HasPrefix line "#!" = false
  \/ (exists rest, line = "#!" +:+ rest /\ strings_Fields (strings_TrimSpace rest) = []) ->
  shebangInterpreter line = EmptyString.
Proof.
  unfold shebangInterpreter. intros [Hplain | (rest & -> & Hnone)].
  - now rewrite Hplain.
  - rewrite !append_cons, append_nil_l. simpl. now rewrite Hnone.
Qed.

(** After the marker and any ASCII white space, a run of ASCII bytes that
    are not white space, followed by nothing or by ASCII white space, is the
    interpreter taken. *)
Lemma shebangInterpreter_first_token (pre tok tail : string) :
  every blank pre = true ->
  tok <> EmptyString ->
  every solid tok = true ->
  endsToken tail = true ->
  shebangInterpreter ("#!" +:+ pre +:+ tok +:+ tail) = tok.
Proof.
  intros Hpre Hne Hsolid Hends.
  destruct (TrimSpace_token tok tail Hne Hsolid) as (kept & gone & Htail & Htrim).
  assert (Hkept : endsToken kept = true).
  { destruct kept as [|b kept]; [reflexivity|].
    rewrite Htail, append_cons in Hends. exact Hends. }
  destruct (Fields_token tok kept Hne Hsolid Hkept) as [more Hfields].
  apply (shebangInterpreter_token (pre +:+ tok +:+ tail) tok more).
  unfold strings_TrimSpace. rewrite trim_head_blanks by exact Hpre.
  fold (strings_TrimSpace (tok +:+ tail)). now rewrite Htrim.
Qed.

Example shebang_with_flag :
  shebangInterpreter "#! /usr/bin/perl -w" = "/usr/bin/perl".
Proof.
  apply (shebangInterpreter_first_token " " "/usr/bin/perl" " -w"); reflexivity || discriminate.
Qed.


(** ** Running commands: general facts *)

Lemma after_nil (w : World) : after w [] = w.
Proof. destruct w. unfold after. simpl. now rewrite app_nil_r. Qed.

Lemma after_after (w : World) (es1 es2 : list event) :
  after (after w es1) es2 = after w (es1 ++ es2).
Proof. unfold after. simpl. now rewrite app_assoc. Qed.

Lemma stat_absent (files : gmap string node) (path : string) :
  files !! path = None -> stat files path = inr ENOENT.
Proof. intros H. unfold stat. now rewrite H. Qed.

Lemma notExist_stat (files : gmap string node) (path : string) :
  notExist (stat files path) = true <-> files !! path = None.
Proof.
  unfold stat. destruct (files !! path) as [[perm data|perm| | |]|]; simpl;
    split; intros H; congruence.
Qed.

Ltac run :=
  unfold bind, ret, gets, when, print, emit, os_Stat, os_ReadFile, os_Open; simpl.

(** A run of a script that is there: the announcement, then the race of the
    child against the timer. *)
Lemma runScript_found (env : Env) (name : string) (args : list string) (w : World) :
  fs w !! filepath_Join env (GetScriptsDir env) name <> None ->
  runScript env name args w =
    runWithTimeout env
      (scriptCommand env (fs w) name (filepath_Join env (GetScriptsDir env) name) args)
      (effectiveTimeout env)
      (viper_GetBool env "verbose" || viper_GetBool env "scripts.verbose")
      (after w (announcement env (filepath_Join env (GetScriptsDir env) name) args)).
Proof.
  intros Hthere. unfold runScript, announcement. run.
  destruct (notExist _) eqn:Hstat.
  { apply notExist_stat in Hstat. contradiction. }
  destruct (viper_GetBool env "verbose" || viper_GetBool env "scripts.verbose");
    simpl.
  - unfold after. simpl. now rewrite <- !app_assoc.
  - now rewrite after_nil.
Qed.

Lemma launched_after (w : World) (es : list event) :
  launched (after w es)
  = (launched w
     ++ omap (fun e => match e with Run c => Some c | _ => None end) es)%list.
Proof. unfold launched, after. simpl. apply omap_app. Qed.

(** The race launches the command it is given, once, and nothing else;
    it launches nothing where the timer wins before [cmd.Run()] is
    called. *)
Lemma runWithTimeout_launches (env : Env) (cmd : Cmd) (timeout : Z) (verbose : bool)
    (w : World) :
  launched (snd (runWithTimeout env cmd timeout verbose w))
  = (launched w ++ if unlaunched env cmd timeout then [] else [cmd])%list.
Proof.
  unfold runWithTimeout, unlaunched. run.
  destruct (child_outlasts env cmd timeout); simpl.
  - destruct (child_progress env cmd timeout); simpl.
    + now rewrite app_nil_r.
    + unfold launched. simpl. now rewrite omap_app.
    + unfold launched. simpl. rewrite !omap_app. simpl. now rewrite app_nil_r.
  - destruct (child_Run env cmd); simpl.
    + unfold launched. simpl. now rewrite omap_app.
    + destruct verbose; unfold launched; simpl; rewrite ?omap_app; simpl;
        now rewrite ?app_nil_r.
Qed.

(** A run of a script that is there launches the command worked out for
    it, once, and nothing else. *)
Lemma runScript_launches (env : Env) (name : string) (args : list string) (w : World) :
  fs w !! filepath_Join env (GetScriptsDir env) name <> None ->
  launched (snd (runScript env name args w))
  = (launched w
     ++ if unlaunched env
             (scriptCommand env (fs w) name
                (filepath_Join env (GetScriptsDir env) name) args)
             (effectiveTimeout env)
        then []
        else [scriptCommand env (fs w) name
                (filepath_Join env (GetScriptsDir env) name) args])%list.
Proof.
  intros Hthere. rewrite runScript_found by exact Hthere.
  rewrite runWithTimeout_launches, launched_after.
  unfold announcement.
  destruct (viper_GetBool env "verbose" || viper_GetBool env "scripts.verbose");
    simpl; now rewrite app_nil_r.
Qed.

Lemma fmt_Scanln_reads (w : World) :
  fmt_Scanln w
  = (hd EmptyString (answers w),
     {| fs := fs w; answers := tl (answers w); trace := trace w |}).
Proof. unfold fmt_Scanln. destruct w as [files [|answer rest] events]; reflexivity. Qed.

(** The loop over the additional variables ends by itself: any fuel above
    the number of answers left gives the same result. *)
Lemma additionalVars_fuel (fuel : nat) :
  forall (fuel' : nat) (vars : gmap string string) (w : World),
    (length (answers w) < fuel)%nat ->
    (length (answers w) < fuel')%nat ->
    additionalVars fuel vars w = additionalVars fuel' vars w.
Proof.
  induction fuel as [|fuel IH]; intros fuel' vars w Hfuel Hfuel'; [lia|].
  destruct fuel' as [|fuel']; [lia|].
  simpl. unfold bind. rewrite fmt_Scanln_reads.
  destruct w as [files [|answer rest] events]; simpl in *; [reflexivity|].
  destruct (String.eqb answer EmptyString); [reflexivity|].
  unfold print, emit. simpl. apply IH; simpl; lia.
Qed.

(** ** The timeout of a run *)

Lemma seconds_exact (n : Z) :
  - 2 ^ 63 <= n * time_Second < 2 ^ 63 -> seconds n = n * time_Second.
Proof.
  intros Hn. unfold seconds, wrap64.
  rewrite Z.mod_small by lia. lia.
Qed.

Lemma seconds_300 : seconds 300 = 300000000000.
Proof. reflexivity. Qed.

(** C9.  The setting [scripts.timeout] is applied only when it is strictly
    positive: then the run's timeout is that many seconds; when it is zero
    or negative (an absent key reads as zero) the timeout is the value of
    the [--timeout] flag, which is 300 seconds when the flag is not given. *)
Theorem config_timeout_only_when_positive (env : Env) (configured : Z) :
  viper_GetInt env "scripts.timeout" = configured ->
  (0 < configured -> effectiveTimeout env = seconds configured) /\
  (configured <= 0 ->
     effectiveTimeout env = seconds (scriptTimeout env) /\
     (forall given, timeout_flag env = Some given ->
        effectiveTimeout env = seconds given) /\
     (timeout_flag env = None -> effectiveTimeout env = 300 * time_Second)).
Proof.
  intros <-. unfold effectiveTimeout, scriptTimeout. split.
  - intros Hpos. apply Z.ltb_lt in Hpos. now rewrite Hpos.
  - intros Hnonpos.
    assert (Hoff : (0 <? viper_GetInt env "scripts.timeout") = false)
      by (apply Z.ltb_ge; lia).
    rewrite Hoff. repeat split.
    + intros given ->. reflexivity.
    + intros ->. reflexivity.
Qed.

Lemma config_timeout_only_when_positive_witness :
  effectiveTimeout (exampleEnv "linux" (Some 10) 0 false false) = seconds 10
  /\ effectiveTimeout (exampleEnv "linux" None (-5) false false) = 300 * time_Second
  /\ effectiveTimeout (exampleEnv "linux" None 60 false false) = seconds 60.
Proof.
  split; [|split].
  - destruct (config_timeout_only_when_positive
                (exampleEnv "linux" (Some 10) 0 false false) 0 eq_refl)
      as [_ Hflag].
    destruct Hflag as (_ & Hgiven & _); [lia|]. now apply Hgiven.
  - destruct (config_timeout_only_when_positive
                (exampleEnv "linux" None (-5) false false) (-5) eq_refl)
      as [_ Hflag].
    destruct Hflag as (_ & _ & Hdefault); [lia|]. now apply Hdefault.
  - destruct (config_timeout_only_when_positive
                (exampleEnv "linux" None 60 false false) 60 eq_refl)
      as [Hconfig _].
    apply Hconfig. lia.
Defined.

(** C1, as stated, fails: with [--timeout 10] on the command line and
    [scripts.timeout: 60] in the settings the run gets 60 seconds, not the
    10 of the flag. *)
Lemma flag_does_not_override_config :
  timeout_flag flagAndConfigEnv = Some 10
  /\ viper_GetInt flagAndConfigEnv "scripts.timeout" = 60
  /\ effectiveTimeout flagAndConfigEnv = 60 * time_Second
  /\ flagFirstTimeout flagAndConfigEnv = 10 * time_Second
  /\ effectiveTimeout flagAndConfigEnv <> flagFirstTimeout flagAndConfigEnv.
Proof. repeat split. discriminate. Qed.

(** C1, amended.  The precedence of the code: the setting [scripts.timeout]
    when it is strictly positive, before the value of the [--timeout] flag
    when the flag is given, before the built-in 300 seconds. *)
Theorem timeout_precedence (env : Env) (configured : Z) :
  viper_GetInt env "scripts.timeout" = configured ->
  (0 < configured -> effectiveTimeout env = seconds configured) /\
  (configured <= 0 -> forall given,
     timeout_flag env = Some given -> effectiveTimeout env = seconds given) /\
  (configured <= 0 -> timeout_flag env = None ->
     effectiveTimeout env = seconds 300).
Proof.
  intros <-. unfold effectiveTimeout, scriptTimeout.
  destruct (Z.ltb_spec 0 (viper_GetInt env "scripts.timeout")) as [Hpos|Hnonpos].
  - repeat split; intros; try reflexivity; lia.
  - repeat split; intros; try lia.
    + match goal with H : timeout_flag env = _ |- _ => now rewrite H end.
    + match goal with H : timeout_flag env = _ |- _ => now rewrite H end.
Qed.

Lemma timeout_precedence_witness :
  effectiveTimeout (exampleEnv "linux" (Some 10) 60 false false) = seconds 60
  /\ effectiveTimeout (exampleEnv "linux" (Some 10) 0 false false) = seconds 10
  /\ effectiveTimeout linuxEnv = seconds 300.
Proof.
  split; [|split].
  - destruct (timeout_precedence
                (exampleEnv "linux" (Some 10) 60 false false) 60 eq_refl)
      as (Hconfig & _ & _).
    apply Hconfig. lia.
  - destruct (timeout_precedence
                (exampleEnv "linux" (Some 10) 0 false false) 0 eq_refl)
      as (_ & Hflag & _).
    apply Hflag; [lia | reflexivity].
  - destruct (timeout_precedence linuxEnv 0 eq_refl) as (_ & _ & Hdefault).
    apply Hdefault; [lia | reflexivity].
Defined.

(** ** How a script is invoked *)

(** C2 does not hold of the code.  For a script without execute permission
    whose first line is [#!/usr/bin/env python3], the command launched is
    never [python3]: when the file can be read it is [/usr/bin/env] with the
    script path and the arguments, the interpreter taken being the first
    word after the marker and [python3] being dropped. *)
Theorem env_shebang_launches_env (env : Env) (files : gmap string node)
    (name path : string) (args : list string) (perm : Z) (rest : string) :
  GOOS env <> "windows" ->
  files !! path
    = Some (RegularFile perm ("#!/usr/bin/env python3" +:+ String LF rest)) ->
  Z.land perm 0x49 = 0 ->
  Name (scriptCommand env files name path args) <> "python3"
  /\ (readable perm = true ->
      scriptCommand env files name path args
        = exec_Command "/usr/bin/env" (path :: args)).
Proof.
  intros Hposix Hfile Hnoexec.
  assert (Hcmd : scriptCommand env files name path args
                 = if readable perm
                   then exec_Command "/usr/bin/env" (path :: args)
                   else exec_Command "sh" (path :: args)).
  { unfold scriptCommand, isExecutable.
    apply String.eqb_neq in Hposix. rewrite Hposix.
    unfold stat. rewrite Hfile. simpl. rewrite Hnoexec. simpl.
    rewrite getInterpreter_firstLine. unfold firstLine, open_file.
    rewrite Hfile. destruct (readable perm); [|reflexivity].
    rewrite scan_first_line_line by (reflexivity || (vm_compute; reflexivity)).
    reflexivity. }
  rewrite Hcmd. split.
  - destruct (readable perm); discriminate.
  - now intros ->.
Qed.

Lemma env_shebang_launches_env_witness :
  scriptCommand linuxEnv pythonFiles "tool.py" "/home/u/.berga/scripts/tool.py"
    ["--fast"; "in.txt"]
  = exec_Command "/usr/bin/env"
      ["/home/u/.berga/scripts/tool.py"; "--fast"; "in.txt"]
  /\ Name (scriptCommand linuxEnv pythonFiles "tool.py"
            "/home/u/.berga/scripts/tool.py" ["--fast"; "in.txt"]) <> "python3".
Proof.
  destruct (env_shebang_launches_env linuxEnv pythonFiles "tool.py"
              "/home/u/.berga/scripts/tool.py" ["--fast"; "in.txt"] 0x1A4
              ("print('hi')" +:+ String LF EmptyString)) as [Hnot Henv].
  - discriminate.
  - reflexivity.
  - reflexivity.
  - split; [apply Henv; reflexivity | exact Hnot].
Defined.

(** C3.  On a host that is not Windows, for a script that is there: with
    an execute bit set it is launched directly with the arguments; without
    one, when its first line starts with the shebang marker and names an
    interpreter (the first white-space-delimited token after the marker),
    that interpreter is launched with the script path and the arguments; in
    every other case [sh] is launched with the script path and the
    arguments. *)
Theorem posix_resolution_order (env : Env) (files : gmap string node)
    (name path : string) (args : list string) (info : FileInfo) :
  GOOS env <> "windows" ->
  stat files path = inl info ->
  (Z.land (Mode info) 0x49 <> 0 ->
     scriptCommand env files name path args = exec_Command path args)
  /\ (Z.land (Mode info) 0x49 = 0 ->
      forall rest interpreter more,
        firstLine files path = Some ("#!" +:+ rest) ->
        strings_Fields (strings_TrimSpace rest) = interpreter :: more ->
        scriptCommand env files name path args
          = exec_Command interpreter (path :: args))
  /\ (Z.land (Mode info) 0x49 = 0 ->
      (firstLine files path = None
       \/ (exists line, firstLine files path = Some line
                        /\ strings_HasPrefix line "#!" = false)
       \/ (exists rest, firstLine files path = Some ("#!" +:+ rest)
                        /\ strings_Fields (strings_TrimSpace rest) = [])) ->
      scriptCommand env files name path args = exec_Command "sh" (path :: args)).
Proof.
  intros Hposix Hstat. apply String.eqb_neq in Hposix.
  unfold scriptCommand, isExecutable. rewrite Hposix, Hstat.
  rewrite getInterpreter_firstLine. split; [|split].
  - intros Hexec. apply Z.eqb_neq in Hexec. now rewrite Hexec.
  - intros Hnoexec rest interpreter more Hline Hfields.
    rewrite Hnoexec, Hline. simpl.
    destruct (shebangInterpreter_token rest interpreter more Hfields) as [-> Hname].
    apply String.eqb_neq in Hname. now rewrite Hname.
  - intros Hnoexec Hnone. rewrite Hnoexec. simpl.
    destruct Hnone as [-> | [(line & -> & Hplain) | (rest & -> & Hblank)]].
    + reflexivity.
    + rewrite shebangInterpreter_none by now left. reflexivity.
    + rewrite shebangInterpreter_none by (right; now exists rest). reflexivity.
Qed.

(** The three cases of the order leave nothing out: a script without
    execute bit either has a first line that names an interpreter or falls
    under one of the conditions that lead to [sh]. *)
Lemma posix_resolution_complete (files : gmap string node) (path : string) :
  (exists rest interpreter more,
     firstLine files path = Some ("#!" +:+ rest)
     /\ strings_Fields (strings_TrimSpace rest) = interpreter :: more)
  \/ firstLine files path = None
  \/ (exists line, firstLine files path = Some line
                   /\ strings_HasPrefix line "#!" = false)
  \/ (exists rest, firstLine files path = Some ("#!" +:+ rest)
                   /\ strings_Fields (strings_TrimSpace rest) = []).
Proof.
  destruct (firstLine files path) as [line|]; [|now right; left].
  destruct (strings_HasPrefix line "#!") eqn:Hmarker.
  - apply HasPrefix_spec in Hmarker. destruct Hmarker as [rest ->].
    destruct (strings_Fields (strings_TrimSpace rest)) as [|interpreter more] eqn:Hf.
    + right; right; right. now exists rest.
    + left. now exists rest, interpreter, more.
  - right; right; left. now exists line.
Qed.

Lemma posix_resolution_order_witness :
  scriptCommand linuxEnv posixFiles "deploy" "/home/u/.berga/scripts/deploy" ["prod"]
    = exec_Command "/home/u/.berga/scripts/deploy" ["prod"]
  /\ scriptCommand linuxEnv posixFiles "build.sh" "/home/u/.berga/scripts/build.sh" ["-j"; "4"]
    = exec_Command "/bin/bash" ["/home/u/.berga/scripts/build.sh"; "-j"; "4"]
  /\ scriptCommand linuxEnv posixFiles "notes" "/home/u/.berga/scripts/notes" []
    = exec_Command "sh" ["/home/u/.berga/scripts/notes"].
Proof.
  split; [|split].
  - destruct (posix_resolution_order linuxEnv posixFiles "deploy"
                "/home/u/.berga/scripts/deploy" ["prod"]
                {| Mode := 0x1ED; Size := 21 |}) as (Hdirect & _ & _).
    + discriminate.
    + reflexivity.
    + apply Hdirect. discriminate.
  - destruct (posix_resolution_order linuxEnv posixFiles "build.sh"
                "/home/u/.berga/scripts/build.sh" ["-j"; "4"]
                {| Mode := 0x1A4; Size := 20 |}) as (_ & Hshebang & _).
    + discriminate.
    + reflexivity.
    + apply (Hshebang eq_refl " /bin/bash -e" "/bin/bash" ["-e"]); reflexivity.
  - destruct (posix_resolution_order linuxEnv posixFiles "notes"
                "/home/u/.berga/scripts/notes" []
                {| Mode := 0x1A4; Size := 11 |}) as (_ & _ & Hshell).
    + discriminate.
    + reflexivity.
    + apply Hshell; [reflexivity|]. right; left.
      exists "echo notes". split; reflexivity.
Defined.

(** C4, as stated, fails: [DEPLOY.BAT] ends in none of [.ps1], [.bat],
    [.cmd], and yet it is not executed directly but handed to [cmd /C]. *)
Lemma upper_case_extension_not_direct :
  strings_HasSuffix upperCaseBatch ".ps1" = false
  /\ strings_HasSuffix upperCaseBatch ".bat" = false
  /\ strings_HasSuffix upperCaseBatch ".cmd" = false
  /\ scriptCommand windowsEnv ∅ upperCaseBatch
       "C:\Users\u\.berga\scripts\DEPLOY.BAT" ["now"]
     = exec_Command "cmd" ["/C"; "C:\Users\u\.berga\scripts\DEPLOY.BAT"; "now"]
  /\ scriptCommand windowsEnv ∅ upperCaseBatch
       "C:\Users\u\.berga\scripts\DEPLOY.BAT" ["now"]
     <> exec_Command "C:\Users\u\.berga\scripts\DEPLOY.BAT" ["now"].
Proof. repeat split. discriminate. Qed.

(** C4, amended.  On Windows, with the endings compared without regard to
    the case of ASCII letters: a name ending in [.ps1] is handed to
    [powershell -File]; otherwise a name ending in [.bat] or [.cmd] is handed
    to [cmd /C]; otherwise the file is executed directly; each time with the
    path and then the arguments. *)
Theorem windows_resolution_order (env : Env) (files : gmap string node)
    (name path : string) (args : list string) :
  GOOS env = "windows" ->
  (endsWithFold name ".ps1" ->
     scriptCommand env files name path args
       = exec_Command "powershell" ("-File" :: path :: args))
  /\ (~ endsWithFold name ".ps1" ->
      endsWithFold name ".bat" \/ endsWithFold name ".cmd" ->
      scriptCommand env files name path args
        = exec_Command "cmd" ("/C" :: path :: args))
  /\ (~ endsWithFold name ".ps1" ->
      ~ endsWithFold name ".bat" ->
      ~ endsWithFold name ".cmd" ->
      scriptCommand env files name path args = exec_Command path args).
Proof.
  intros Hwindows. unfold scriptCommand. rewrite Hwindows. simpl.
  split; [|split].
  - intros Hps1. apply HasSuffix_ToLower in Hps1. now rewrite Hps1.
  - intros Hps1 Hbatch.
    destruct (strings_HasSuffix (strings_ToLower name) ".ps1") eqn:Hp.
    { apply HasSuffix_ToLower in Hp. contradiction. }
    rewrite <- !HasSuffix_ToLower in Hbatch.
    apply orb_true_iff in Hbatch. now rewrite Hbatch.
  - intros Hps1 Hbat Hcmd.
    rewrite <- HasSuffix_ToLower in Hps1, Hbat, Hcmd.
    apply not_true_is_false in Hps1, Hbat, Hcmd.
    now rewrite Hps1, Hbat, Hcmd.
Qed.

Lemma windows_resolution_order_witness :
  scriptCommand windowsEnv ∅ "Setup.PS1" "C:\Users\u\.berga\scripts\Setup.PS1" ["-q"]
    = exec_Command "powershell" ["-File"; "C:\Users\u\.berga\scripts\Setup.PS1"; "-q"]
  /\ scriptCommand windowsEnv ∅ upperCaseBatch
       "C:\Users\u\.berga\scripts\DEPLOY.BAT" ["now"]
    = exec_Command "cmd" ["/C"; "C:\Users\u\.berga\scripts\DEPLOY.BAT"; "now"]
  /\ scriptCommand windowsEnv ∅ "tool.exe" "C:\Users\u\.berga\scripts\tool.exe" []
    = exec_Command "C:\Users\u\.berga\scripts\tool.exe" [].
Proof.
  split; [|split].
  - apply (windows_resolution_order windowsEnv ∅ "Setup.PS1"
             "C:\Users\u\.berga\scripts\Setup.PS1" ["-q"] eq_refl).
    exists "Setup", ".PS1". split; reflexivity.
  - apply (windows_resolution_order windowsEnv ∅ upperCaseBatch
             "C:\Users\u\.berga\scripts\DEPLOY.BAT" ["now"] eq_refl).
    + rewrite <- HasSuffix_ToLower. discriminate.
    + left. exists "DEPLOY", ".BAT". split; reflexivity.
  - apply (windows_resolution_order windowsEnv ∅ "tool.exe"
             "C:\Users\u\.berga\scripts\tool.exe" [] eq_refl);
      rewrite <- HasSuffix_ToLower; discriminate.
Defined.

(** ** The race against the timer *)

(** A started child that the timer overtakes is sent a kill, and the run
    returns [TimedOut] with its timeout; the result of the kill plays no
    part. *)
Lemma started_child_is_killed (env : Env) (name : string) (args : list string)
    (w : World) (cmd : Cmd) :
  fs w !! filepath_Join env (GetScriptsDir env) name <> None ->
  scriptCommand env (fs w) name (filepath_Join env (GetScriptsDir env) name) args
    = cmd ->
  child_outlasts env cmd (effectiveTimeout env) = true ->
  child_progress env cmd (effectiveTimeout env) = Started ->
  runScript env name args w =
    (Returns (Some (TimedOut (effectiveTimeout env))),
     after w (announcement env (filepath_Join env (GetScriptsDir env) name) args
              ++ [Run cmd; Kill cmd])).
Proof.
  intros Hthere Hcmd Hslow Hstarted.
  rewrite runScript_found by exact Hthere. rewrite Hcmd.
  unfold runWithTimeout. rewrite Hslow, Hstarted. run.
  unfold after. simpl. now rewrite <- !app_assoc.
Qed.

(** Where the timer wins and [cmd.Process] is still nil the run panics,
    and what it has done by then is the announcement and, at most, the call
    of [cmd.Run()]. *)
Lemma unstarted_child_panics (env : Env) (name : string) (args : list string)
    (w : World) (cmd : Cmd) :
  fs w !! filepath_Join env (GetScriptsDir env) name <> None ->
  scriptCommand env (fs w) name (filepath_Join env (GetScriptsDir env) name) args
    = cmd ->
  child_outlasts env cmd (effectiveTimeout env) = true ->
  child_progress env cmd (effectiveTimeout env) <> Started ->
  runScript env name args w =
    (Panics,
     after w (announcement env (filepath_Join env (GetScriptsDir env) name) args
              ++ match child_progress env cmd (effectiveTimeout env) with
                 | NotCalled => []
                 | Starting | Started => [Run cmd]
                 end)).
Proof.
  intros Hthere Hcmd Hslow Hnil.
  rewrite runScript_found by exact Hthere. rewrite Hcmd.
  unfold runWithTimeout. rewrite Hslow.
  destruct (child_progress env cmd (effectiveTimeout env)); [| |contradiction]; run.
  - now rewrite app_nil_r.
  - unfold after. simpl. now rewrite <- !app_assoc.
Qed.

(** C5 does not hold of the code.  When the timer wins the [select] of a
    run, the program calls [cmd.Process.Kill()].  On a child that is started
    this is what C5 says: a kill is sent and [TimedOut] is returned with the
    timeout of the run, whether the kill fails or not.  Where [cmd.Process]
    is still nil, as with [--timeout 0], the call dereferences nil: the
    program panics, no kill is sent and no timed-out error is returned. *)
Theorem early_timer_panics (env : Env) (name : string) (args : list string)
    (w : World) (cmd : Cmd) :
  fs w !! filepath_Join env (GetScriptsDir env) name <> None ->
  scriptCommand env (fs w) name (filepath_Join env (GetScriptsDir env) name) args
    = cmd ->
  child_outlasts env cmd (effectiveTimeout env) = true ->
  (child_progress env cmd (effectiveTimeout env) = Started ->
     runScript env name args w =
       (Returns (Some (TimedOut (effectiveTimeout env))),
        after w (announcement env (filepath_Join env (GetScriptsDir env) name) args
                 ++ [Run cmd; Kill cmd])))
  /\ (child_progress env cmd (effectiveTimeout env) <> Started ->
      fst (runScript env name args w) = Panics
      /\ exists added,
           trace (snd (runScript env name args w)) = (trace w ++ added)%list
           /\ forall c, ~ In (Kill c) added).
Proof.
  intros Hthere Hcmd Hslow. split.
  - now apply started_child_is_killed.
  - intros Hnil.
    rewrite (unstarted_child_panics env name args w cmd Hthere Hcmd Hslow Hnil).
    split; [reflexivity|]. eexists. split; [reflexivity|].
    intros c Hin. apply in_app_or in Hin. destruct Hin as [Hin|Hin].
    + unfold announcement in Hin.
      destruct (viper_GetBool env "verbose" || viper_GetBool env "scripts.verbose");
        simpl in Hin; intuition discriminate.
    + destruct (child_progress env cmd (effectiveTimeout env));
        simpl in Hin; intuition discriminate.
Qed.

Lemma early_timer_panics_witness :
  effectiveTimeout zeroTimeoutEnv = 0
  /\ fst (runScript zeroTimeoutEnv "nap.sh" [] napWorld) = Panics
  /\ child_Kill impatientEnv (exec_Command "/home/u/.berga/scripts/nap.sh" []) <> None
  /\ runScript impatientEnv "nap.sh" [] napWorld =
       (Returns (Some (TimedOut 1000000000)),
        after napWorld
          [Run (exec_Command "/home/u/.berga/scripts/nap.sh" []);
           Kill (exec_Command "/home/u/.berga/scripts/nap.sh" [])]).
Proof.
  split; [reflexivity|]. split; [|split; [discriminate|]].
  - destruct (early_timer_panics zeroTimeoutEnv "nap.sh" [] napWorld
                (exec_Command "/home/u/.berga/scripts/nap.sh" []))
      as [_ Hpanics].
    + vm_compute. discriminate.
    + reflexivity.
    + reflexivity.
    + destruct Hpanics as [Hresult _]; [vm_compute; discriminate | exact Hresult].
  - destruct (early_timer_panics impatientEnv "nap.sh" [] napWorld
                (exec_Command "/home/u/.berga/scripts/nap.sh" []))
      as [Hkilled _].
    + vm_compute. discriminate.
    + reflexivity.
    + reflexivity.
    + apply Hkilled. reflexivity.
Defined.

(** ** Names that are not there *)

(** C6, as stated, fails.  Beside a regular file [notes] the scripts
    directory holds no file of the name [notes/x], and [os.Stat] fails on
    that path with an error that is not "does not exist": [run] goes on and
    launches [sh] on the path, and [show] fails reading it; neither returns
    the not-found error. *)
Lemma path_through_file_not_reported :
  noFile (fs nestedWorld) "/home/u/.berga/scripts/notes/x" = true
  /\ launched (snd (runScript linuxEnv "notes/x" [] nestedWorld))
     = [exec_Command "sh" ["/home/u/.berga/scripts/notes/x"]]
  /\ (forall dir,
        fst (runScript linuxEnv "notes/x" [] nestedWorld)
        <> Returns (Some (ScriptNotFound "notes/x" dir)))
  /\ showScript linuxEnv "notes/x" nestedWorld
     = (Some (ReadScriptFailed ENOTDIR), nestedWorld).
Proof. repeat split. discriminate. Qed.

(** C6, amended.  When the operating system reports that the path of the
    name asked for in the scripts directory does not exist, [run] and [show]
    both fail with the not-found error and leave the world as it is: nothing
    is printed and no command is launched. *)
Theorem missing_script_not_found (env : Env) (name : string) (args : list string)
    (w : World) :
  fs w !! filepath_Join env (GetScriptsDir env) name = None ->
  runScript env name args w
    = (Returns (Some (ScriptNotFound name (GetScriptsDir env))), w)
  /\ showScript env name w = (Some (ScriptNotFound name (GetScriptsDir env)), w)
  /\ launched (snd (runScript env name args w)) = launched w.
Proof.
  intros Habsent.
  assert (Hrun : runScript env name args w
                 = (Returns (Some (ScriptNotFound name (GetScriptsDir env))), w)).
  { unfold runScript. run. now rewrite (stat_absent _ _ Habsent). }
  split; [exact Hrun|]. split.
  - unfold showScript. run. now rewrite (stat_absent _ _ Habsent).
  - now rewrite Hrun.
Qed.

Lemma missing_script_not_found_witness :
  runScript linuxEnv "ghost.sh" ["now"] loopWorld
    = (Returns (Some (ScriptNotFound "ghost.sh" "/home/u/.berga/scripts")), loopWorld)
  /\ showScript linuxEnv "ghost.sh" loopWorld
    = (Some (ScriptNotFound "ghost.sh" "/home/u/.berga/scripts"), loopWorld)
  /\ launched (snd (runScript linuxEnv "ghost.sh" ["now"] loopWorld)) = [].
Proof.
  apply (missing_script_not_found linuxEnv "ghost.sh" ["now"] loopWorld).
  reflexivity.
Defined.

(** C7, as stated, fails.  Beside a regular file [plain] the templates
    directory holds neither [plain/sub] nor [plain/sub.tmpl], and [os.Stat]
    fails on the first path with an error that is not "does not exist":
    [apply] takes the template as found and fails reading it, with an error
    that is not the not-found one.  The destination is not created. *)
Lemma template_through_file_not_reported :
  noFile (fs nestedTemplates) "/home/u/.berga/templates/plain/sub" = true
  /\ noFile (fs nestedTemplates) "/home/u/.berga/templates/plain/sub.tmpl" = true
  /\ applyTemplate linuxEnv "plain/sub" "out.txt" nestedTemplates
     = (Some (ReadTemplateFailed ENOTDIR), nestedTemplates)
  /\ fs nestedTemplates !! "out.txt" = None.
Proof. repeat split. Qed.

(** C7, amended.  When the operating system reports of both paths in the
    templates directory, that of the name asked for and that of the name
    followed by [.tmpl], that they do not exist, [apply] fails with the
    not-found error and leaves the world as it is: the destination is
    neither created nor changed. *)
Theorem missing_template_not_found (env : Env) (name output : string) (w : World) :
  fs w !! filepath_Join env (GetTemplatesDir env) name = None ->
  fs w !! filepath_Join env (GetTemplatesDir env) (name +:+ ".tmpl") = None ->
  applyTemplate env name output w
    = (Some (TemplateNotFound name (GetTemplatesDir env)), w)
  /\ fs (snd (applyTemplate env name output w)) !! output = fs w !! output.
Proof.
  intros Hexact Hsuffixed.
  assert (Happly : applyTemplate env name output w
                   = (Some (TemplateNotFound name (GetTemplatesDir env)), w)).
  { unfold applyTemplate, findTemplate. run.
    rewrite (stat_absent _ _ Hexact). simpl.
    now rewrite (stat_absent _ _ Hsuffixed). }
  split; [exact Happly|]. now rewrite Happly.
Qed.

Lemma missing_template_not_found_witness :
  applyTemplate linuxEnv "missing-template" "out.txt" loopWorld
    = (Some (TemplateNotFound "missing-template" "/home/u/.berga/templates"),
       loopWorld)
  /\ fs (snd (applyTemplate linuxEnv "missing-template" "out.txt" loopWorld))
       !! "out.txt" = None.
Proof.
  apply (missing_template_not_found linuxEnv "missing-template" "out.txt" loopWorld);
    reflexivity.
Defined.

(** ** Declining to overwrite *)

Lemma applyFound_declined (env : Env) (name templatePath output : string)
    (w : World) (info : FileInfo) :
  stat (fs w) output = inl info ->
  strings_ToLower (hd EmptyString (answers w)) <> "y" ->
  strings_ToLower (hd EmptyString (answers w)) <> "yes" ->
  applyFound env name templatePath output w = (None, cancelled w output).
Proof.
  intros Hdest Hy Hyes. unfold applyFound, cancelled. run. rewrite Hdest.
  apply String.eqb_neq in Hy, Hyes.
  rewrite fmt_Scanln_reads. cbn [fs answers trace].
  rewrite Hy, Hyes. simpl. now rewrite <- app_assoc.
Qed.

Lemma findTemplate_found (env : Env) (files : gmap string node) (dir name : string) :
  files !! filepath_Join env dir name <> None
  \/ files !! filepath_Join env dir (name +:+ ".tmpl") <> None ->
  exists templatePath, findTemplate env files dir name = Some templatePath.
Proof.
  intros Hfound. unfold findTemplate.
  destruct (notExist (stat files (filepath_Join env dir name))) eqn:Hexact;
    [|eauto].
  destruct (notExist (stat files (filepath_Join env dir (name +:+ ".tmpl"))))
    eqn:Hsuffixed; [|eauto].
  apply notExist_stat in Hexact, Hsuffixed. destruct Hfound; contradiction.
Qed.

(** C8.  [apply] onto a destination that exists, answered with anything but
    [y] or [yes] (in any case): the files are left as they are, so the
    destination keeps its bytes, and once the template is found no error is
    returned; all that happens is the question, the reading of the answer
    and the notice of cancellation. *)
Theorem declined_overwrite_keeps_destination (env : Env) (name output : string)
    (w : World) (perm : Z) (data : string) :
  fs w !! output = Some (RegularFile perm data) ->
  strings_ToLower (hd EmptyString (answers w)) <> "y" ->
  strings_ToLower (hd EmptyString (answers w)) <> "yes" ->
  fs (snd (applyTemplate env name output w)) = fs w
  /\ fs (snd (applyTemplate env name output w)) !! output
       = Some (RegularFile perm data)
  /\ (fs w !! filepath_Join env (GetTemplatesDir env) name <> None
      \/ fs w !! filepath_Join env (GetTemplatesDir env) (name +:+ ".tmpl") <> None ->
      applyTemplate env name output w = (None, cancelled w output)).
Proof.
  intros Hdest Hy Hyes.
  assert (Hstat : stat (fs w) output
                  = inl {| Mode := perm; Size := Z.of_nat (String.length data) |}).
  { unfold stat. now rewrite Hdest. }
  assert (Hcases :
            applyTemplate env name output w
              = (Some (TemplateNotFound name (GetTemplatesDir env)), w)
            \/ applyTemplate env name output w = (None, cancelled w output)).
  { unfold applyTemplate. run.
    destruct (findTemplate env (fs w) (GetTemplatesDir env) name) as [templatePath|].
    - right. now apply applyFound_declined with (info := {| Mode := perm; Size := Z.of_nat (String.length data) |}).
    - left. reflexivity. }
  split; [|split].
  - destruct Hcases as [-> | ->]; reflexivity.
  - destruct Hcases as [-> | ->]; simpl; exact Hdest.
  - intros Hfound. unfold applyTemplate. run.
    destruct (findTemplate_found env (fs w) (GetTemplatesDir env) name Hfound)
      as [templatePath ->].
    now apply applyFound_declined with (info := {| Mode := perm; Size := Z.of_nat (String.length data) |}).
Qed.

Lemma declined_overwrite_keeps_destination_witness :
  fs (snd (applyTemplate linuxEnv "readme.md" "out.md" declineWorld))
    !! "out.md" = Some (RegularFile 0x1A4 "keep me")
  /\ applyTemplate linuxEnv "readme.md" "out.md" declineWorld
     = (None, cancelled declineWorld "out.md").
Proof.
  destruct (declined_overwrite_keeps_destination
              linuxEnv "readme.md" "out.md" declineWorld 0x1A4 "keep me")
    as (_ & Hkept & Hquiet).
  - reflexivity.
  - vm_compute. discriminate.
  - vm_compute. discriminate.
  - split; [exact Hkept|]. apply Hquiet. right. vm_compute. discriminate.
Defined.

(** ** Editing *)

(** C10.  [edit] looks for no file: whatever the name, and whether or not
    the scripts directory holds it, the configured editor is launched on the
    path of that name, and what [edit] returns is what the editor's run
    returns, never the not-found error. *)
Theorem edit_launches_without_check (env : Env) (name : string) (w : World) :
  editScript env name w
  = (ProcessError <$>
       child_Run env
         (exec_Command (configuredEditor env)
            [filepath_Join env (GetScriptsDir env) name]),
     after w
       [Output (MsgOpening (filepath_Join env (GetScriptsDir env) name)
                 (configuredEditor env));
        Run (exec_Command (configuredEditor env)
               [filepath_Join env (GetScriptsDir env) name])])
  /\ launched (snd (editScript env name w))
     = (launched w ++ [exec_Command (configuredEditor env)
                         [filepath_Join env (GetScriptsDir env) name]])%list
  /\ forall missing dir, fst (editScript env name w) <> Some (ScriptNotFound missing dir).
Proof.
  assert (Hedit : editScript env name w
    = (ProcessError <$>
         child_Run env
           (exec_Command (configuredEditor env)
              [filepath_Join env (GetScriptsDir env) name]),
       after w
         [Output (MsgOpening (filepath_Join env (GetScriptsDir env) name)
                   (configuredEditor env));
          Run (exec_Command (configuredEditor env)
                 [filepath_Join env (GetScriptsDir env) name])])).
  { unfold editScript, after. run. now rewrite <- app_assoc. }
  split; [exact Hedit|]. rewrite Hedit. split.
  - unfold launched, after. simpl. rewrite omap_app. reflexivity.
  - intros missing dir. simpl. destruct (child_Run env _); discriminate.
Qed.

(** On a name the scripts directory does not hold, with no editor
    configured, [edit] starts [nano] on the path. *)
Example edit_of_missing_script :
  fs loopWorld !! "/home/u/.berga/scripts/ghost.sh" = None
  /\ editScript linuxEnv "ghost.sh" loopWorld
     = (None,
        after loopWorld
          [Output (MsgOpening "/home/u/.berga/scripts/ghost.sh" "nano");
           Run (exec_Command "nano" ["/home/u/.berga/scripts/ghost.sh"])]).
Proof. split; reflexivity. Qed.

(** * Further properties *)

(** ** Runs that complete, kills and launches *)

Lemma runScript_missing (env : Env) (name : string) (args : list string) (w : World) :
  fs w !! filepath_Join env (GetScriptsDir env) name = None ->
  runScript env name args w
  = (Returns (Some (ScriptNotFound name (GetScriptsDir env))), w).
Proof. intros Habsent. unfold runScript. run. now rewrite (stat_absent _ _ Habsent). Qed.

(** X1.  When the child of a run completes before the timer fires, the run
    returns nothing if [cmd.Run()] returned nothing and otherwise the
    execution failure that carries its cause, whatever the timeout; no kill
    is asked for, and the completion notice is printed only for a successful
    run under verbose settings. *)
Theorem completed_run_reports_child (env : Env) (name : string) (args : list string)
    (w : World) (cmd : Cmd) :
  fs w !! filepath_Join env (GetScriptsDir env) name <> None ->
  scriptCommand env (fs w) name (filepath_Join env (GetScriptsDir env) name) args
    = cmd ->
  child_outlasts env cmd (effectiveTimeout env) = false ->
  runScript env name args w =
    (Returns (ExecutionFailed <$> child_Run env cmd),
     after w (announcement env (filepath_Join env (GetScriptsDir env) name) args
              ++ [Run cmd]
              ++ match child_Run env cmd with
                 | None =>
                     if viper_GetBool env "verbose" || viper_GetBool env "scripts.verbose"
                     then [Output MsgCompleted] else []
                 | Some _ => []
                 end)).
Proof.
  intros Hthere Hcmd Hquick.
  rewrite runScript_found by exact Hthere. rewrite Hcmd.
  unfold runWithTimeout. run. rewrite Hquick.
  destruct (child_Run env cmd) as [cause|]; simpl.
  - unfold after. simpl. now rewrite <- !app_assoc.
  - destruct (viper_GetBool env "verbose" || viper_GetBool env "scripts.verbose");
      unfold after; simpl; now rewrite <- !app_assoc.
Qed.

Lemma completed_run_reports_child_witness :
  runScript linuxEnv "build.sh" ["-j"; "4"]
    {| fs := posixFiles; answers := []; trace := [] |}
  = (Returns None,
     {| fs := posixFiles; answers := [];
        trace := [Run (exec_Command "/bin/bash"
                         ["/home/u/.berga/scripts/build.sh"; "-j"; "4"])] |}).
Proof.
  apply (completed_run_reports_child linuxEnv "build.sh" ["-j"; "4"]
           {| fs := posixFiles; answers := []; trace := [] |}
           (exec_Command "/bin/bash" ["/home/u/.berga/scripts/build.sh"; "-j"; "4"])).
  - vm_compute. discriminate.
  - reflexivity.
  - reflexivity.
Defined.

(** X2.  A run sends its child a kill exactly when it returns the
    timed-out error: among the events a run adds there is a kill if and only
    if its result is [TimedOut].  This holds of every run: of a missing
    script, of one that completes, and of one that panics because the timer
    wins before the child is started, which sends no kill and returns
    nothing. *)
Theorem kill_exactly_on_timeout (env : Env) (name : string) (args : list string)
    (w : World) :
  exists added,
    trace (snd (runScript env name args w)) = (trace w ++ added)%list
    /\ ((exists c, In (Kill c) added)
        <-> exists d, fst (runScript env name args w) = Returns (Some (TimedOut d)))
    /\ (fst (runScript env name args w) = Panics -> forall c, ~ In (Kill c) added).
Proof.
  destruct (fs w !! filepath_Join env (GetScriptsDir env) name) as [n|] eqn:Hnode.
  - assert (Hthere : fs w !! filepath_Join env (GetScriptsDir env) name <> None)
      by (rewrite Hnode; discriminate).
    rewrite runScript_found by exact Hthere.
    set (cmd := scriptCommand env (fs w) name
                  (filepath_Join env (GetScriptsDir env) name) args).
    set (said := announcement env (filepath_Join env (GetScriptsDir env) name) args).
    assert (Hsaid : forall c, ~ In (Kill c) said).
    { intros c. unfold said, announcement.
      destruct (viper_GetBool env "verbose" || viper_GetBool env "scripts.verbose");
        simpl; intuition discriminate. }
    assert (Hnone : forall more,
              (forall c, ~ In (Kill c) more) ->
              forall c, ~ In (Kill c) (said ++ more)%list).
    { intros more Hmore c Hin. apply in_app_or in Hin.
      destruct Hin as [Hin|Hin]; [now apply Hsaid in Hin | now apply Hmore in Hin]. }
    unfold runWithTimeout.
    destruct (child_outlasts env cmd (effectiveTimeout env)).
    + destruct (child_progress env cmd (effectiveTimeout env)); run.
      * exists said. split; [reflexivity|]. split; [|intros _; exact Hsaid].
        split; [intros [c Hin]; now apply Hsaid in Hin | intros [d Hd]; discriminate].
      * exists (said ++ [Run cmd])%list. split; [now rewrite <- !app_assoc|].
        assert (Hquiet : forall c, ~ In (Kill c) (said ++ [Run cmd])%list).
        { apply Hnone. intros c Hin. simpl in Hin. intuition discriminate. }
        split; [|intros _; exact Hquiet].
        split; [intros [c Hin]; now apply Hquiet in Hin | intros [d Hd]; discriminate].
      * exists (said ++ [Run cmd; Kill cmd])%list. split;
          [now rewrite <- !app_assoc|].
        split; [|discriminate].
        split; [eauto|]. intros _. exists cmd. apply in_or_app. right. simpl. auto.
    + run. destruct (child_Run env cmd) as [cause|]; simpl.
      * exists (said ++ [Run cmd])%list. split; [now rewrite <- !app_assoc|].
        assert (Hquiet : forall c, ~ In (Kill c) (said ++ [Run cmd])%list).
        { apply Hnone. intros c Hin. simpl in Hin. intuition discriminate. }
        split; [|intros _; exact Hquiet].
        split; [intros [c Hin]; now apply Hquiet in Hin | intros [d Hd]; discriminate].
      * destruct (viper_GetBool env "verbose" || viper_GetBool env "scripts.verbose");
          simpl.
        -- exists (said ++ [Run cmd; Output MsgCompleted])%list. split;
             [now rewrite <- !app_assoc|].
           assert (Hquiet : forall c,
                     ~ In (Kill c) (said ++ [Run cmd; Output MsgCompleted])%list).
           { apply Hnone. intros c Hin. simpl in Hin. intuition discriminate. }
           split; [|intros _; exact Hquiet].
           split; [intros [c Hin]; now apply Hquiet in Hin
                  | intros [d Hd]; discriminate].
        -- exists (said ++ [Run cmd])%list. split; [now rewrite <- !app_assoc|].
           assert (Hquiet : forall c, ~ In (Kill c) (said ++ [Run cmd])%list).
           { apply Hnone. intros c Hin. simpl in Hin. intuition discriminate. }
           split; [|intros _; exact Hquiet].
           split; [intros [c Hin]; now apply Hquiet in Hin
                  | intros [d Hd]; discriminate].
  - rewrite (runScript_missing env name args w Hnode).
    exists []. split; [simpl; now rewrite app_nil_r|].
    split; [|intros _ c []].
    split; [intros [c []] | intros [d Hd]; discriminate].
Qed.

Lemma kill_exactly_on_timeout_witness :
  fst (runScript zeroTimeoutEnv "nap.sh" [] napWorld) = Panics
  /\ forall c, ~ In (Kill c) (trace (snd (runScript zeroTimeoutEnv "nap.sh" [] napWorld))).
Proof.
  split; [reflexivity|].
  destruct (kill_exactly_on_timeout zeroTimeoutEnv "nap.sh" [] napWorld)
    as (added & Htrace & _ & Hpanics).
  rewrite Htrace. simpl. apply Hpanics. reflexivity.
Defined.

(** X3.  On every platform and whatever the file is, the arguments of a run
    reach the child whole and in order, at the end of its argument list;
    the script path is either the command itself, with nothing before the
    arguments, or the argument just before them. *)
Theorem arguments_pass_through (env : Env) (files : gmap string node)
    (name path : string) (args : list string) :
  exists before,
    Args (scriptCommand env files name path args) = (before ++ args)%list
    /\ ((before = [] /\ Name (scriptCommand env files name path args) = path)
        \/ exists options, before = (options ++ [path])%list).
Proof.
  unfold scriptCommand.
  destruct (String.eqb (GOOS env) "windows").
  - destruct (strings_HasSuffix (strings_ToLower name) ".ps1").
    + exists ["-File"; path]. split; [reflexivity|]. right. now exists ["-File"].
    + destruct (strings_HasSuffix (strings_ToLower name) ".bat"
                || strings_HasSuffix (strings_ToLower name) ".cmd").
      * exists ["/C"; path]. split; [reflexivity|]. right. now exists ["/C"].
      * exists []. split; [reflexivity|]. now left.
  - destruct (isExecutable env files path).
    + exists []. split; [reflexivity|]. now left.
    + destruct (negb (String.eqb (getInterpreter files path) EmptyString));
        exists [path]; (split; [reflexivity|]); right; now exists [].
Qed.

(** X4.  A run calls [cmd.Run()] once, on the command worked out for the
    script, or not at all: not at all exactly when the script path is
    reported not to exist, or when the timer wins before the call is reached
    and the run panics. *)
Theorem one_launch_per_run (env : Env) (name : string) (args : list string)
    (w : World) :
  launched (snd (runScript env name args w))
  = (launched w
     ++ if notExist (stat (fs w) (filepath_Join env (GetScriptsDir env) name))
           || unlaunched env
                (scriptCommand env (fs w) name
                   (filepath_Join env (GetScriptsDir env) name) args)
                (effectiveTimeout env)
        then []
        else [scriptCommand env (fs w) name
                (filepath_Join env (GetScriptsDir env) name) args])%list
  /\ (unlaunched env
        (scriptCommand env (fs w) name
           (filepath_Join env (GetScriptsDir env) name) args)
        (effectiveTimeout env) = true ->
      fs w !! filepath_Join env (GetScriptsDir env) name <> None ->
      fst (runScript env name args w) = Panics).
Proof.
  split.
  - destruct (notExist (stat (fs w) (filepath_Join env (GetScriptsDir env) name)))
      eqn:Hstat.
    + apply notExist_stat in Hstat.
      rewrite (runScript_missing env name args w Hstat). simpl. now rewrite app_nil_r.
    + simpl. apply runScript_launches. intros Habsent.
      apply notExist_stat in Habsent. congruence.
  - intros Hearly Hthere. rewrite runScript_found by exact Hthere.
    unfold unlaunched in Hearly. apply andb_true_iff in Hearly.
    destruct Hearly as [Hslow Hprogress].
    unfold runWithTimeout. rewrite Hslow.
    now destruct (child_progress env _ (effectiveTimeout env)).
Qed.

Lemma one_launch_per_run_witness :
  fst (runScript zeroTimeoutEnv "nap.sh" [] napWorld) = Panics
  /\ launched (snd (runScript zeroTimeoutEnv "nap.sh" [] napWorld)) = [].
Proof.
  destruct (one_launch_per_run zeroTimeoutEnv "nap.sh" [] napWorld)
    as [Hlaunched Hpanics].
  split; [|exact Hlaunched].
  apply Hpanics; [reflexivity | vm_compute; discriminate].
Defined.

(** ** What counts as executable *)

Lemma execute_bits_of_directory (perm : Z) :
  Z.land (Z.lor ModeDir perm) 0x49 = Z.land perm 0x49.
Proof. rewrite Z.land_lor_distr_l. reflexivity. Qed.

(** X5.  [isExecutable] looks at the permission bits and not at the kind of
    file: off Windows, a directory of the scripts directory with an execute
    bit counts as executable, and a run of its name launches the directory
    path directly. *)
Theorem directory_runs_directly (env : Env) (files : gmap string node)
    (name path : string) (args : list string) (perm : Z) :
  GOOS env <> "windows" ->
  files !! path = Some (Directory perm) ->
  Z.land perm 0x49 <> 0 ->
  isExecutable env files path = true
  /\ scriptCommand env files name path args = exec_Command path args.
Proof.
  intros Hposix Hdir Hbits. apply String.eqb_neq in Hposix.
  assert (Hexec : isExecutable env files path = true).
  { unfold isExecutable, stat. rewrite Hdir, Hposix. simpl.
    rewrite execute_bits_of_directory. apply negb_true_iff. now apply Z.eqb_neq. }
  split; [exact Hexec|].
  unfold scriptCommand. now rewrite Hposix, Hexec.
Qed.

Lemma directory_runs_directly_witness :
  scriptCommand linuxEnv
    {[ "/home/u/.berga/scripts/tools" := Directory 0x1ED ]}
    "tools" "/home/u/.berga/scripts/tools" ["x"]
  = exec_Command "/home/u/.berga/scripts/tools" ["x"].
Proof.
  apply (directory_runs_directly linuxEnv
           {[ "/home/u/.berga/scripts/tools" := Directory 0x1ED ]}
           "tools" "/home/u/.berga/scripts/tools" ["x"] 0x1ED).
  - discriminate.
  - reflexivity.
  - discriminate.
Defined.

Lemma byte_inj (c d : ascii) : byte c = byte d -> c = d.
Proof.
  unfold byte. intros H.
  rewrite <- (ascii_N_embedding c), <- (ascii_N_embedding d). now rewrite H.
Qed.

Lemma byte_lt_256 (c : ascii) : (byte c < 256)%N.
Proof. apply N_ascii_bounded. Qed.

Lemma byte_lower (c : ascii) :
  byte (lower_byte c)
  = if (0x41 <=? byte c)%N && (byte c <=? 0x5A)%N then (byte c + 0x20)%N else byte c.
Proof.
  unfold lower_byte.
  destruct ((0x41 <=? byte c)%N && (byte c <=? 0x5A)%N) eqn:Hupper; [|reflexivity].
  apply andb_true_iff in Hupper. destruct Hupper as [_ Hle]. apply N.leb_le in Hle.
  unfold byte at 1. apply N_ascii_embedding. lia.
Qed.

(** Lowering turns no other byte into a plain one, a full stop or a
    separator. *)
Lemma plainByte_lower (goos : string) (c : ascii) :
  plainByte goos (lower_byte c) = true -> plainByte goos c = true.
Proof.
  unfold plainByte, os_IsPathSeparator. rewrite byte_lower.
  destruct ((0x41 <=? byte c)%N && (byte c <=? 0x5A)%N) eqn:Hupper; [|auto].
  intros _. apply andb_true_iff in Hupper. destruct Hupper as [Hge Hle].
  apply N.leb_le in Hge, Hle.
  assert (H1 : (byte c =? 0x2F)%N = false) by (apply N.eqb_neq; lia).
  assert (H2 : (byte c =? 0x5C)%N = false) by (apply N.eqb_neq; lia).
  assert (H3 : (byte c =? 0x2E)%N = false) by (apply N.eqb_neq; lia).
  rewrite H1, H2, H3. now rewrite andb_false_r.
Qed.

Lemma lower_byte_dot (c : ascii) : lower_byte c = DOT -> c = DOT.
Proof.
  intros H. apply (f_equal byte) in H. rewrite byte_lower in H.
  destruct ((0x41 <=? byte c)%N && (byte c <=? 0x5A)%N) eqn:Hupper.
  - apply andb_true_iff in Hupper. destruct Hupper as [Hge _].
    apply N.leb_le in Hge. change (byte DOT) with 0x2E%N in H. lia.
  - now apply byte_inj.
Qed.

Lemma every_plain_lower (goos : string) (s : string) :
  every (plainByte goos) (strings_ToLower s) = true -> every (plainByte goos) s = true.
Proof.
  induction s as [|c s IH]; [reflexivity|]. simpl.
  rewrite !andb_true_iff. intros [Hc Hs]. split; [now apply plainByte_lower | auto].
Qed.

(** Going backwards over plain bytes, [filepath.Ext] stops at the first
    full stop and gives it with what it passed. *)
Lemma ext_loop_plain (goos : string) (r1 : string) :
  forall (r2 seen : string),
    every (plainByte goos) r1 = true ->
    ext_loop goos (r1 +:+ String DOT r2) seen = String DOT (String.rev r1 +:+ seen).
Proof.
  induction r1 as [|c r1 IH]; intros r2 seen Hplain.
  - rewrite append_nil_l. simpl.
    unfold os_IsPathSeparator. change (byte DOT) with 0x2E%N. simpl.
    now rewrite andb_false_r.
  - simpl in Hplain. apply andb_true_iff in Hplain. destruct Hplain as [Hc Hplain].
    unfold plainByte in Hc. apply andb_true_iff in Hc. destruct Hc as [Hsep Hdot].
    apply negb_true_iff in Hsep, Hdot.
    rewrite append_cons. simpl. rewrite Hsep, Hdot.
    rewrite IH by exact Hplain. now rewrite rev_cons, append_assoc.
Qed.

(** What [filepath.Ext] gives is empty or a full stop and plain bytes that
    end the path. *)
Lemma ext_loop_result (goos : string) (r : string) :
  forall seen,
    ext_loop goos r seen = EmptyString
    \/ exists r1 r2,
         r = r1 +:+ String DOT r2
         /\ every (plainByte goos) r1 = true
         /\ ext_loop goos r seen = String DOT (String.rev r1 +:+ seen).
Proof.
  induction r as [|c r IH]; intros seen; [now left|].
  simpl. destruct (os_IsPathSeparator goos c) eqn:Hsep; [now left|].
  destruct (byte c =? 0x2E)%N eqn:Hdot.
  - right. exists EmptyString, r. apply N.eqb_eq in Hdot.
    assert (c = DOT) as -> by (apply byte_inj; exact Hdot).
    repeat split.
  - destruct (IH (String c seen)) as [Hnone | (r1 & r2 & -> & Hplain & Hext)];
      [now left|].
    right. exists (String c r1), r2. repeat split.
    + simpl. rewrite Hplain. unfold plainByte. now rewrite Hsep, Hdot.
    + rewrite Hext. now rewrite rev_cons, append_assoc.
Qed.

(** The extension of a path, lowered, is [.] and the plain lower-case
    bytes [e] exactly when the path ends in them, case apart. *)
Lemma Ext_endsWithFold (goos path e : string) :
  every (plainByte goos) e = true ->
  strings_ToLower (filepath_Ext goos path) = String DOT e
  <-> endsWithFold path (String DOT e).
Proof.
  intros Hplain. unfold filepath_Ext. split.
  - intros Hext.
    destruct (ext_loop_result goos (String.rev path) EmptyString)
      as [Hnone | (r1 & r2 & Hrev & _ & Hfound)].
    + rewrite Hnone in Hext. discriminate.
    + exists (String.rev r2), (String DOT (String.rev r1)). split.
      * rewrite <- (rev_involutive path), Hrev, rev_append, rev_cons.
        now rewrite append_assoc.
      * rewrite Hfound, append_nil_r in Hext. exact Hext.
  - intros (stem & tail & -> & Htail).
    destruct tail as [|d t]; [discriminate|].
    simpl in Htail. injection Htail as Hd Ht.
    apply lower_byte_dot in Hd. subst d.
    assert (Hplain' : every (plainByte goos) t = true).
    { apply every_plain_lower. now rewrite Ht. }
    rewrite rev_append, rev_cons, append_assoc, append_cons, append_nil_l.
    rewrite ext_loop_plain by (now rewrite every_rev).
    rewrite rev_involutive, append_nil_r. simpl. now rewrite Ht.
Qed.

(** X6.  On Windows a path counts as executable exactly when it can be
    stat'ed and ends in [.exe], [.bat], [.cmd] or [.ps1], the case of the
    letters apart; its permission bits play no part. *)
Theorem windows_executable_by_extension (env : Env) (files : gmap string node)
    (path : string) :
  GOOS env = "windows" ->
  isExecutable env files path = true
  <-> (exists info, stat files path = inl info)
      /\ (endsWithFold path ".exe" \/ endsWithFold path ".bat"
          \/ endsWithFold path ".cmd" \/ endsWithFold path ".ps1").
Proof.
  intros Hwindows. unfold isExecutable. rewrite Hwindows. simpl.
  assert (Hext : forall e, every (plainByte "windows") e = true ->
            String.eqb (strings_ToLower (filepath_Ext "windows" path)) (String DOT e)
            = true <-> endsWithFold path (String DOT e)).
  { intros e He. rewrite String.eqb_eq. now apply Ext_endsWithFold. }
  destruct (stat files path) as [info|err].
  - rewrite !orb_true_iff.
    change ".exe" with (String DOT "exe"). change ".bat" with (String DOT "bat").
    change ".cmd" with (String DOT "cmd"). change ".ps1" with (String DOT "ps1").
    rewrite !Hext by reflexivity. split.
    + intros H. split; [eauto | tauto].
    + intros [_ H]. tauto.
  - split; [discriminate | intros [[info H] _]; discriminate].
Qed.

Lemma windows_executable_by_extension_witness :
  isExecutable windowsEnv
    {[ "C:\Users\u\.berga\scripts\Setup.EXE" := RegularFile 0x124 EmptyString ]}
    "C:\Users\u\.berga\scripts\Setup.EXE" = true.
Proof.
  apply (windows_executable_by_extension windowsEnv
           {[ "C:\Users\u\.berga\scripts\Setup.EXE" := RegularFile 0x124 EmptyString ]}
           "C:\Users\u\.berga\scripts\Setup.EXE" eq_refl).
  split.
  - eexists. reflexivity.
  - left. exists "C:\Users\u\.berga\scripts\Setup", ".EXE". split; reflexivity.
Defined.

(** ** The interpreter of a script *)

(** The first line of a file that holds [line] and then a line feed, or
    [line] alone, is [line] without a closing carriage return. *)
Lemma scan_first_line_dropCR (line content rest : string) :
  line <> EmptyString ->
  before_newline line = line ->
  (N.of_nat (String.length line) < MaxScanTokenSize)%N ->
  content = line +:+ String LF rest \/ content = line ->
  scan_first_line content = Some (dropCR line).
Proof.
  intros Hne Hline Hfits Hcontent. unfold scan_first_line.
  assert (Hbefore : before_newline content = line).
  { destruct Hcontent as [-> | ->]; [now apply before_newline_line | exact Hline]. }
  destruct content as [|c data] eqn:Hdata.
  { destruct Hcontent as [H|H]; destruct line; discriminate || contradiction. }
  rewrite Hbefore. apply N.ltb_lt in Hfits. now rewrite Hfits.
Qed.

(** Dropping the carriage return after a token of solid bytes leaves the
    token whole, and what followed it still ends the token. *)
Lemma dropCR_after_token (head tok tail : string) :
  tok <> EmptyString ->
  every solid tok = true ->
  endsToken tail = true ->
  exists tail',
    dropCR (head +:+ tok +:+ tail) = head +:+ tok +:+ tail'
    /\ endsToken tail' = true.
Proof.
  intros Hne Hsolid Hends. unfold dropCR.
  rewrite !rev_append, append_assoc.
  destruct (String.rev tail) as [|c r] eqn:Htail.
  - assert (tail = EmptyString) as ->.
    { rewrite <- (rev_involutive tail), Htail. reflexivity. }
    rewrite append_nil_l.
    destruct (String.rev tok) as [|d back] eqn:Htok.
    { exfalso. apply Hne. rewrite <- (rev_involutive tok), Htok. reflexivity. }
    rewrite append_cons.
    assert (Hd : solid d = true).
    { rewrite <- every_rev, Htok in Hsolid. simpl in Hsolid.
      now apply andb_true_iff in Hsolid. }
    assert (Hcr : (byte d =? 13)%N = false).
    { apply N.eqb_neq. intros Heq. apply solid_not_blank in Hd.
      rewrite Heq in Hd. discriminate. }
    rewrite Hcr. exists EmptyString. split; reflexivity.
  - rewrite append_cons. cbv beta iota. destruct (byte c =? 13)%N.
    + exists (String.rev r). split.
      * rewrite !rev_append, !rev_involutive, append_assoc. reflexivity.
      * assert (Hwhole : tail = String.rev r +:+ String c EmptyString).
        { rewrite <- (rev_involutive tail), Htail. apply rev_cons. }
        destruct (String.rev r) as [|b u]; [reflexivity|].
        rewrite Hwhole, append_cons in Hends. exact Hends.
    + exists tail. split; [reflexivity | exact Hends].
Qed.

(** X7.  For a readable script whose first line is the marker, ASCII white
    space or none, a word of ASCII bytes that are not white space, and then
    nothing or white space and anything, the interpreter found is that word:
    arguments after it and a carriage return that closes the line are left
    out. *)
Theorem shebang_names_interpreter (files : gmap string node) (path : string)
    (perm : Z) (pre tok tail content rest : string) :
  files !! path = Some (RegularFile perm content) ->
  readable perm = true ->
  content = ("#!" +:+ pre +:+ tok +:+ tail) +:+ String LF rest
  \/ content = "#!" +:+ pre +:+ tok +:+ tail ->
  before_newline ("#!" +:+ pre +:+ tok +:+ tail) = "#!" +:+ pre +:+ tok +:+ tail ->
  (N.of_nat (String.length ("#!" +:+ pre +:+ tok +:+ tail)) < MaxScanTokenSize)%N ->
  every blank pre = true ->
  tok <> EmptyString ->
  every solid tok = true ->
  endsToken tail = true ->
  getInterpreter files path = tok.
Proof.
  intros Hfile Hread Hcontent Hline Hfits Hpre Hne Hsolid Hends.
  rewrite getInterpreter_firstLine. unfold firstLine, open_file.
  rewrite Hfile, Hread.
  rewrite (scan_first_line_dropCR ("#!" +:+ pre +:+ tok +:+ tail) content rest);
    [|discriminate | exact Hline | exact Hfits | exact Hcontent].
  destruct (dropCR_after_token ("#!" +:+ pre) tok tail Hne Hsolid Hends)
    as (tail' & Hdrop & Hends').
  rewrite append_assoc in Hdrop. rewrite Hdrop, append_assoc.
  now apply shebangInterpreter_first_token.
Qed.

Lemma shebang_names_interpreter_witness :
  getInterpreter perlFiles "/home/u/.berga/scripts/report.pl" = "/usr/bin/perl".
Proof.
  apply (shebang_names_interpreter perlFiles "/home/u/.berga/scripts/report.pl" 0x1A4
           " " "/usr/bin/perl" (" -w" +:+ String (ascii_of_N 13) EmptyString)
           perlScript "print 1;").
  - reflexivity.
  - reflexivity.
  - left. reflexivity.
  - reflexivity.
  - vm_compute. reflexivity.
  - reflexivity.
  - discriminate.
  - reflexivity.
  - reflexivity.
Defined.

(** Bytes enter a field only where no white-space rune starts, so that no
    field holds an ASCII white-space byte. *)
Lemma fields_loop_no_blank (s : string) :
  forall skip cur field,
    (forall c, cur = Some c -> every (fun b => negb (blank b)) c = true) ->
    In field (fields_loop skip cur s) ->
    every (fun b => negb (blank b)) field = true.
Proof.
  induction s as [|c s IH]; intros skip cur field Hcur Hin.
  - simpl in Hin. destruct cur as [f|]; simpl in Hin; [|contradiction].
    destruct Hin as [<-|[]]. rewrite every_rev. now apply Hcur.
  - rewrite fields_loop_cons in Hin. destruct skip as [|k].
    + destruct (space_width (String c s)) as [|k] eqn:Hwidth.
      * apply (IH 0%nat (Some (String c (default EmptyString cur))) field);
          [|exact Hin].
        intros f [= <-]. simpl. apply andb_true_iff. split.
        -- unfold blank. unfold space_width in Hwidth.
           destruct (asciiSpace (byte c)); [discriminate | reflexivity].
        -- destruct cur as [f|]; [now apply Hcur | reflexivity].
      * destruct cur as [f|].
        -- destruct Hin as [<-|Hin]; [rewrite every_rev; now apply Hcur|].
           apply (IH k None field); [discriminate | exact Hin].
        -- apply (IH k None field); [discriminate | exact Hin].
    + apply (IH k None field); [discriminate | exact Hin].
Qed.

(** X8.  Whatever the file holds, the interpreter found for it has no
    ASCII white-space byte in it: no tab, line feed, carriage return or
    space ever reaches the name of the command. *)
Theorem interpreter_has_no_blank (files : gmap string node) (path : string) :
  every (fun b => negb (blank b)) (getInterpreter files path) = true.
Proof.
  rewrite getInterpreter_firstLine.
  destruct (firstLine files path) as [line|]; [|reflexivity].
  unfold shebangInterpreter.
  destruct (strings_HasPrefix line "#!"); [|reflexivity].
  destruct (strings_Fields (strings_TrimSpace (slice_from 2 line)))
    as [|interpreter more] eqn:Hfields; [reflexivity|].
  apply (fields_loop_no_blank (strings_TrimSpace (slice_from 2 line)) 0 None).
  - discriminate.
  - fold (strings_Fields (strings_TrimSpace (slice_from 2 line))).
    rewrite Hfields. now left.
Qed.

(** ** Editors *)

(** X9.  The editor of [script edit] is the setting [editor]; if that is
    empty the variable [EDITOR]; if that is empty too the variable
    [VISUAL]; and with all three empty [notepad] on Windows and [nano]
    elsewhere.  It is never the empty string. *)
Theorem script_editor_precedence (env : Env) :
  (viper_GetString env "editor" <> EmptyString ->
     configuredEditor env = viper_GetString env "editor")
  /\ (viper_GetString env "editor" = EmptyString ->
      Getenv env "EDITOR" <> EmptyString ->
      configuredEditor env = Getenv env "EDITOR")
  /\ (viper_GetString env "editor" = EmptyString ->
      Getenv env "EDITOR" = EmptyString ->
      Getenv env "VISUAL" <> EmptyString ->
      configuredEditor env = Getenv env "VISUAL")
  /\ (viper_GetString env "editor" = EmptyString ->
      Getenv env "EDITOR" = EmptyString ->
      Getenv env "VISUAL" = EmptyString ->
      configuredEditor env = if String.eqb (GOOS env) "windows" then "notepad" else "nano")
  /\ configuredEditor env <> EmptyString.
Proof.
  unfold configuredEditor.
  destruct (viper_GetString env "editor") as [|a s];
    destruct (Getenv env "EDITOR") as [|b t];
    destruct (Getenv env "VISUAL") as [|c u]; simpl;
    repeat split; intros; try congruence;
    destruct (String.eqb (GOOS env) "windows"); discriminate.
Qed.

Lemma script_editor_precedence_witness :
  configuredEditor linuxEnv = "nano" /\ configuredEditor windowsEnv = "notepad".
Proof.
  split.
  - destruct (script_editor_precedence linuxEnv) as (_ & _ & _ & Hdefault & _).
    apply Hdefault; reflexivity.
  - destruct (script_editor_precedence windowsEnv) as (_ & _ & _ & Hdefault & _).
    apply Hdefault; reflexivity.
Defined.

(** X10.  [template edit] and [script edit] choose the same editor whenever
    one is configured, by the setting or by [EDITOR] or [VISUAL].  With none
    configured they agree exactly when the platform and the variable [OS]
    tell the same story: [script edit] goes by the platform the program was
    built for, [template edit] by whether [OS] holds [windows] in any
    case. *)
Theorem editors_agree (env : Env) :
  (viper_GetString env "editor" <> EmptyString
   \/ Getenv env "EDITOR" <> EmptyString
   \/ Getenv env "VISUAL" <> EmptyString ->
   templateEditor env = configuredEditor env)
  /\ (viper_GetString env "editor" = EmptyString ->
      Getenv env "EDITOR" = EmptyString ->
      Getenv env "VISUAL" = EmptyString ->
      (templateEditor env = configuredEditor env
       <-> String.eqb (GOOS env) "windows"
           = strings_Contains (lowerToASCII (Getenv env "OS")) "windows")).
Proof.
  unfold templateEditor, configuredEditor. split.
  - intros Hsome.
    destruct (viper_GetString env "editor") as [|a s];
      destruct (Getenv env "EDITOR") as [|b t];
      destruct (Getenv env "VISUAL") as [|c u]; simpl; try reflexivity.
    destruct Hsome as [H|[H|H]]; contradiction.
  - intros -> -> ->. simpl.
    destruct (String.eqb (GOOS env) "windows");
      destruct (strings_Contains (lowerToASCII (Getenv env "OS")) "windows");
      split; intros H; (reflexivity || discriminate).
Qed.

Lemma editors_agree_witness :
  templateEditor linuxEnv = configuredEditor linuxEnv
  /\ templateEditor mixedEnv <> configuredEditor mixedEnv.
Proof.
  split.
  - destruct (editors_agree linuxEnv) as [_ Hnone].
    apply Hnone; reflexivity.
  - destruct (editors_agree mixedEnv) as [_ Hnone].
    intros Hsame. apply Hnone in Hsame; try reflexivity. discriminate.
Defined.

(** ** Editing a template *)



(** X12.  [template edit] opens the file that [template apply] would use:
    whenever [apply] finds a template for a name, [edit] of that name opens
    the same path. *)
Theorem edit_opens_what_apply_uses (env : Env) (files : gmap string node)
    (name templatePath : string) :
  findTemplate env files (GetTemplatesDir env) name = Some templatePath ->
  templatePathToEdit env files name = templatePath.
Proof.
  unfold findTemplate, templatePathToEdit.
  destruct (notExist (stat files (filepath_Join env (GetTemplatesDir env) name))).
  - destruct (notExist
                (stat files
                   (filepath_Join env (GetTemplatesDir env) (name +:+ ".tmpl"))));
      [discriminate | now intros [= <-]].
  - now intros [= <-].
Qed.

Lemma edit_opens_what_apply_uses_witness :
  templatePathToEdit linuxEnv templateFiles "readme.md"
  = "/home/u/.berga/templates/readme.md.tmpl".
Proof.
  apply (edit_opens_what_apply_uses linuxEnv templateFiles "readme.md"
           "/home/u/.berga/templates/readme.md.tmpl").
  reflexivity.
Defined.

(** ** Template variables *)

(** X13.  An answer [key=value] is split at its first sign of equality:
    putting a key without that sign, the sign and any value together and
    splitting gives the key and the value back; whatever splits is its key,
    the sign and its value; and an answer fails to split exactly when it
    holds no sign of equality. *)
Theorem splitAssignment_round_trip (input key value : string) :
  (every (fun c => negb (Ascii.eqb c EQUALS)) key = true ->
     splitAssignment (key +:+ String EQUALS value) = Some (key, value))
  /\ (splitAssignment input = Some (key, value) ->
      input = key +:+ String EQUALS value
      /\ every (fun c => negb (Ascii.eqb c EQUALS)) key = true)
  /\ (splitAssignment input = None
      <-> every (fun c => negb (Ascii.eqb c EQUALS)) input = true).
Proof.
  assert (Htest : forall c, (byte c =? 0x3D)%N = Ascii.eqb c EQUALS).
  { intros c. destruct (Ascii.eqb_spec c EQUALS) as [->|Hne]; [reflexivity|].
    apply N.eqb_neq. intros Heq. apply Hne. now apply byte_inj. }
  split; [|split].
  - induction key as [|c key IH]; intros Hkey.
    + reflexivity.
    + simpl in Hkey. apply andb_true_iff in Hkey. destruct Hkey as [Hc Hkey].
      rewrite append_cons. simpl. rewrite Htest.
      apply negb_true_iff in Hc. rewrite Hc. now rewrite IH.
  - revert key. induction input as [|c input IH]; intros key Hsplit; [discriminate|].
    simpl in Hsplit. rewrite Htest in Hsplit.
    destruct (Ascii.eqb_spec c EQUALS) as [->|Hne].
    + injection Hsplit as <- <-. split; reflexivity.
    + destruct (splitAssignment input) as [[k v]|]; [|discriminate].
      injection Hsplit as <- <-. destruct (IH k eq_refl) as [-> Hk].
      split; [reflexivity|]. simpl. rewrite Hk.
      apply Ascii.eqb_neq in Hne. now rewrite Hne.
  - induction input as [|c input IH]; [split; reflexivity|].
    simpl. rewrite Htest.
    destruct (Ascii.eqb c EQUALS); simpl; [split; discriminate|].
    destruct (splitAssignment input) as [[k v]|].
    + split; [discriminate|]. intros H. apply IH in H. discriminate.
    + split; [intros _; now apply IH | reflexivity].
Qed.

Lemma splitAssignment_round_trip_witness :
  splitAssignment "License=MIT=ish" = Some ("License", "MIT=ish").
Proof.
  apply (splitAssignment_round_trip EmptyString "License" "MIT=ish").
  reflexivity.
Defined.

(** X14.  The loop over the additional variables takes the answers in
    order up to the first empty one, each assignment setting its key (a
    later one for the same key wins) and each answer without sign of
    equality changing nothing; it asks again once per answer taken, and the
    answers after the empty one are left on standard input. *)
Theorem additional_variables_in_order (taken : list string) :
  forall (later : list string) (vars : gmap string string) (w : World) (fuel : nat),
    Forall (fun input => input <> EmptyString) taken ->
    answers w = (taken ++ later)%list ->
    hd EmptyString later = EmptyString ->
    (length (answers w) < fuel)%nat ->
    additionalVars fuel vars w
    = (fold_left assign taken vars,
       {| fs := fs w; answers := tl later;
          trace := trace w ++ repeat morePrompt (length taken) |}).
Proof.
  induction taken as [|input taken IH];
    intros later vars w fuel Hfull Hanswers Hend Hfuel.
  - simpl in *. destruct fuel as [|fuel]; [lia|].
    simpl. unfold bind. rewrite fmt_Scanln_reads. rewrite Hanswers, Hend.
    simpl. rewrite app_nil_r. reflexivity.
  - destruct fuel as [|fuel]; [lia|].
    inversion Hfull as [|? ? Hinput Hrest]; subst.
    simpl. unfold bind. rewrite fmt_Scanln_reads. rewrite Hanswers. simpl.
    apply String.eqb_neq in Hinput. rewrite Hinput.
    unfold print, emit. simpl.
    assert (Hleft : (length (taken ++ later) < fuel)%nat).
    { rewrite Hanswers in Hfuel. simpl in Hfuel. lia. }
    etransitivity.
    { apply (IH later (assign vars input)
               {| fs := fs w; answers := (taken ++ later)%list;
                  trace := trace w ++ [morePrompt] |} fuel Hrest eq_refl Hend Hleft). }
    simpl. now rewrite <- app_assoc.
Qed.

Lemma additional_variables_in_order_witness :
  fst (additionalVars 6 ∅
         (exampleWorld [] ["k=v"; "junk"; "k=w"; EmptyString; "later"]))
    !! "k" = Some "w"
  /\ answers (snd (additionalVars 6 ∅
         (exampleWorld [] ["k=v"; "junk"; "k=w"; EmptyString; "later"])))
     = ["later"].
Proof.
  rewrite (additional_variables_in_order ["k=v"; "junk"; "k=w"]
             [EmptyString; "later"] ∅
             (exampleWorld [] ["k=v"; "junk"; "k=w"; EmptyString; "later"]) 6).
  - split; reflexivity.
  - repeat constructor; discriminate.
  - reflexivity.
  - reflexivity.
  - simpl. lia.
Defined.

Lemma Quiet_ret {A} (a : A) : Quiet (ret a).
Proof. intros w. split; reflexivity. Qed.

Lemma Quiet_gets {A} (f : World -> A) : Quiet (gets f).
Proof. intros w. split; reflexivity. Qed.

Lemma Quiet_print (m : message) : Quiet (print m).
Proof.
  intros w. split; [reflexivity|].
  unfold print, emit, launched. simpl. rewrite omap_app. simpl. apply app_nil_r.
Qed.

Lemma Quiet_Scanln : Quiet fmt_Scanln.
Proof. intros w. rewrite fmt_Scanln_reads. split; reflexivity. Qed.

Lemma Quiet_bind {A B} (m : M A) (k : A -> M B) :
  Quiet m -> (forall a, Quiet (k a)) -> Quiet (bind m k).
Proof.
  intros Hm Hk w. unfold bind. specialize (Hm w).
  destruct (m w) as [a w1]. simpl in Hm. specialize (Hk a w1).
  destruct Hm as [Hfs Hl], Hk as [Hfs' Hl']. split; congruence.
Qed.

Lemma Quiet_if {A} (b : bool) (m1 m2 : M A) : Quiet m1 -> Quiet m2 -> Quiet (if b then m1 else m2).
Proof. now destruct b. Qed.

Create HintDb quiet.

#[local] Hint Resolve Quiet_ret Quiet_gets Quiet_print Quiet_Scanln : quiet.

Ltac quiet_steps :=
  repeat first
    [ apply Quiet_bind; [|intros ?]
    | apply Quiet_if
    | solve [auto with quiet] ].

Lemma Quiet_additionalVars (fuel : nat) :
  forall vars, Quiet (additionalVars fuel vars).
Proof.
  induction fuel as [|fuel IH]; intros vars; simpl; [apply Quiet_ret|].
  apply Quiet_bind; [apply Quiet_Scanln|]. intros input.
  apply Quiet_if; [apply Quiet_ret|].
  apply Quiet_bind; [apply Quiet_print | intros _; apply IH].
Qed.

Lemma Quiet_collectTemplateVars (env : Env) : Quiet (collectTemplateVars env).
Proof.
  unfold collectTemplateVars.
  apply Quiet_bind; [apply Quiet_print | intros _].
  apply Quiet_bind; [|intros vars1].
  { apply Quiet_if; quiet_steps. }
  apply Quiet_bind; [|intros vars2].
  { apply Quiet_if; quiet_steps. }
  apply Quiet_bind; [apply Quiet_print | intros _].
  apply Quiet_bind; [apply Quiet_gets | intros pending].
  apply Quiet_additionalVars.
Qed.

(** The loop over the additional variables sets keys and removes none. *)
Lemma additionalVars_keeps (key : string) (fuel : nat) :
  forall vars w,
    is_Some (vars !! key) -> is_Some (fst (additionalVars fuel vars w) !! key).
Proof.
  induction fuel as [|fuel IH]; intros vars w Hkey; simpl; [exact Hkey|].
  unfold bind. rewrite fmt_Scanln_reads.
  destruct (String.eqb (hd EmptyString (answers w)) EmptyString); [exact Hkey|].
  unfold print, emit. simpl. apply IH.
  destruct (splitAssignment (hd EmptyString (answers w))) as [[k v]|]; [|exact Hkey].
  rewrite lookup_insert_is_Some. destruct (decide (k = key)); auto.
Qed.

(** What holds of every result of [m] and carries over [k] holds of every
    result of the two in a row. *)
Lemma result_bind {A B} (P : A -> Prop) (Q : B -> Prop) (m : M A) (k : A -> M B) :
  (forall w, P (fst (m w))) ->
  (forall a, P a -> forall w, Q (fst (k a w))) ->
  forall w, Q (fst (bind m k w)).
Proof.
  intros Hm Hk w. unfold bind. specialize (Hm w).
  destruct (m w) as [a w1]. now apply Hk.
Qed.

Lemma collectTemplateVars_has (env : Env) (key : string) (w : World) :
  key = "Author" \/ key = "Email" ->
  is_Some (fst (collectTemplateVars env w) !! key).
Proof.
  intros Hkey. unfold collectTemplateVars.
  set (Has := fun vars : gmap string string => is_Some (vars !! key)).
  match goal with |- is_Some (?x !! key) => change (Has x) end.
  revert w.
  apply (result_bind (fun _ => True) Has); [auto | intros _ _].
  apply (result_bind Has Has).
  - intros w. unfold Has.
    assert (Hstart : is_Some
              (match Getwd env with
               | Some cwd =>
                   <["ProjectName" := filepath_Base env cwd]>
                     (<["CurrentDir" := filepath_Base env cwd]>
                        (<["Email" := viper_GetString env "templates.email"]>
                           (<["Author" := viper_GetString env "templates.author"]>
                              (∅ : gmap string string))))
               | None =>
                   <["Email" := viper_GetString env "templates.email"]>
                     (<["Author" := viper_GetString env "templates.author"]>
                        (∅ : gmap string string))
               end !! key)).
    { destruct (Getwd env); rewrite !lookup_insert_is_Some;
        destruct Hkey as [-> | ->];
        repeat (first [left; reflexivity | right; split; [discriminate|]]). }
    match goal with
    | |- context [if ?b then _ else _] => destruct b
    end.
    + unfold bind, print, emit, ret. rewrite fmt_Scanln_reads.
      match goal with
      | |- context [if ?b then _ else _] => destruct b
      end; simpl; [|exact Hstart].
      rewrite lookup_insert_is_Some.
      destruct (decide ("ProjectName" = key)); auto.
    + unfold bind, print, emit, ret. simpl. exact Hstart.
  - intros vars1 Hvars1.
    apply (result_bind Has Has).
    + intros w. unfold Has in *.
      match goal with
      | |- context [if ?b then _ else _] => destruct b
      end.
      * unfold bind, print, emit, ret. rewrite fmt_Scanln_reads.
        match goal with
        | |- context [if ?b then _ else _] => destruct b
        end; simpl; [|exact Hvars1].
        rewrite lookup_insert_is_Some.
        destruct (decide ("Author" = key)); auto.
      * unfold bind, print, emit, ret. simpl. exact Hvars1.
    + intros vars2 Hvars2.
      apply (result_bind (fun _ => True) Has); [auto | intros _ _].
      apply (result_bind (fun _ => True) Has); [auto | intros pending _].
      intros w. unfold Has in *. now apply additionalVars_keeps.
Qed.

(** X15.  Whatever the settings, the working directory and the answers,
    the variables handed to a template have entries for [Author] and
    [Email], and collecting them leaves the files as they are and launches
    nothing. *)
Theorem variables_always_name_author (env : Env) (w : World) :
  is_Some (fst (collectTemplateVars env w) !! "Author")
  /\ is_Some (fst (collectTemplateVars env w) !! "Email")
  /\ quiet w (snd (collectTemplateVars env w)).
Proof.
  split; [|split].
  - apply collectTemplateVars_has. now left.
  - apply collectTemplateVars_has. now right.
  - apply Quiet_collectTemplateVars.
Qed.

(** ** What applying a template writes *)

Lemma Quiet_Touches {A} (output : string) (m : M A) : Quiet m -> Touches output m.
Proof.
  intros Hm w. destruct (Hm w) as [Hfs Hl]. split; [|exact Hl].
  intros p _. now rewrite Hfs.
Qed.

Lemma Touches_bind {A B} (output : string) (m : M A) (k : A -> M B) :
  Touches output m -> (forall a, Touches output (k a)) -> Touches output (bind m k).
Proof.
  intros Hm Hk w. unfold bind. specialize (Hm w).
  destruct (m w) as [a w1]. simpl in Hm. specialize (Hk a w1).
  destruct Hm as [Hfs Hl], Hk as [Hfs' Hl']. split; [|congruence].
  intros p Hp. rewrite Hfs' by exact Hp. now apply Hfs.
Qed.

Lemma Touches_Create (env : Env) (output data : string) :
  Touches output (os_Create env output data).
Proof.
  intros w. unfold os_Create.
  assert (Hput : forall perm,
            touchesOnly output w
              {| fs := <[output := RegularFile perm data]> (fs w);
                 answers := answers w; trace := trace w |}).
  { intros perm. split; [|reflexivity].
    intros p Hp. simpl. now rewrite lookup_insert_ne. }
  assert (Hstay : touchesOnly output w w) by (split; reflexivity).
  destruct (fs w !! output) as [[perm old|perm| | |]|]; simpl; try exact Hstay.
  - destruct (readable perm && writable perm); simpl; [apply Hput | exact Hstay].
  - destruct (newfile_error env (fs w) output); simpl; [exact Hstay | apply Hput].
Qed.

Lemma Touches_renderTemplate (env : Env) (name templatePath output : string) :
  Touches output (renderTemplate env name templatePath output).
Proof.
  unfold renderTemplate.
  apply Touches_bind; [apply Quiet_Touches, Quiet_gets | intros content].
  destruct content as [text|err]; [|apply Quiet_Touches, Quiet_ret].
  destruct (template_Parse env name text) as [tmpl|];
    [|apply Quiet_Touches, Quiet_ret].
  apply Touches_bind; [apply Quiet_Touches, Quiet_collectTemplateVars | intros vars].
  destruct (template_Execute env tmpl vars) as [written failure].
  apply Touches_bind; [apply Touches_Create | intros created].
  destruct created as [err|]; [apply Quiet_Touches, Quiet_ret|].
  destruct failure as [err|]; apply Quiet_Touches; quiet_steps.
Qed.

(** X16.  Applying a template changes no file but the destination and
    launches nothing, whatever the template, the answers and the outcome. *)
Theorem apply_touches_destination_only (env : Env) (name output : string) (w : World) :
  touchesOnly output w (snd (applyTemplate env name output w)).
Proof.
  revert w. change (Touches output (applyTemplate env name output)).
  unfold applyTemplate.
  apply Touches_bind; [apply Quiet_Touches, Quiet_gets | intros found].
  destruct found as [templatePath|]; [|apply Quiet_Touches, Quiet_ret].
  unfold applyFound.
  apply Touches_bind; [apply Quiet_Touches, Quiet_gets | intros r].
  destruct r as [info|err]; [|apply Touches_renderTemplate].
  apply Touches_bind; [apply Quiet_Touches, Quiet_print | intros _].
  apply Touches_bind; [apply Quiet_Touches, Quiet_Scanln | intros response].
  match goal with
  | |- context [if ?b then _ else _] => destruct b
  end; [apply Quiet_Touches; quiet_steps | apply Touches_renderTemplate].
Qed.

(** X17.  Applying a template that is found, read and parsed onto a path
    that leads to nothing.  Where the host lets a file be made there, the
    destination comes to hold exactly what the template's execution wrote,
    with the permission bits [0666] less the umask; when the execution fails
    its error is returned and the destination holds what was written until
    then.  Where the host does not (the directory of the path is not there,
    say), the failure to create the file is returned, after the variables
    have been asked for, and no file is made. *)
Theorem apply_fills_fresh_destination (env : Env) (name output : string) (w w1 : World)
    (templatePath text tmpl written : string) (vars : gmap string string)
    (failure : option string) :
  findTemplate env (fs w) (GetTemplatesDir env) name = Some templatePath ->
  read_file (fs w) templatePath = inl text ->
  template_Parse env name text = Some tmpl ->
  fs w !! output = None ->
  collectTemplateVars env w = (vars, w1) ->
  template_Execute env tmpl vars = (written, failure) ->
  (newfile_error env (fs w) output = None ->
     fst (applyTemplate env name output w) = ExecuteTemplateFailed <$> failure
     /\ fs (snd (applyTemplate env name output w))
        = <[output := RegularFile (Z.ldiff 0x1B6 (umask env)) written]> (fs w))
  /\ (forall err, newfile_error env (fs w) output = Some err ->
        applyTemplate env name output w = (Some (CreateOutputFailed err), w1)
        /\ fs w1 = fs w).
Proof.
  intros Hfind Hread Hparse Hfresh Hcollect Hexec.
  assert (Hfs1 : fs w1 = fs w).
  { pose proof (Quiet_collectTemplateVars env w) as [Hq _].
    now rewrite Hcollect in Hq. }
  assert (Hrun : applyTemplate env name output w
                 = let (created, w2) := os_Create env output written w1 in
                   match created with
                   | Some err => (Some (CreateOutputFailed err), w2)
                   | None =>
                       match failure with
                       | Some err => (Some (ExecuteTemplateFailed err), w2)
                       | None => (None, after w2 [Output (MsgApplied name output)])
                       end
                   end).
  { unfold applyTemplate, applyFound, renderTemplate.
    unfold os_Stat, os_ReadFile, print, emit. unfold bind, gets, ret.
    cbv beta iota. rewrite Hfind. cbv beta iota.
    rewrite (stat_absent _ _ Hfresh). cbv beta iota.
    rewrite Hread, Hparse, Hcollect, Hexec.
    destruct (os_Create env output written w1) as [[err|] w2]; [reflexivity|].
    destruct failure; reflexivity. }
  rewrite Hrun. unfold os_Create. rewrite Hfs1, Hfresh. split.
  - intros ->. destruct failure as [err|]; simpl; split; reflexivity.
  - intros err ->. split; reflexivity.
Qed.

Lemma apply_fills_fresh_destination_witness :
  fs (snd (applyTemplate linuxEnv "readme.md" "README.md"
             {| fs := templateFiles; answers := []; trace := [] |}))
  = <["README.md" := RegularFile 0x1A4 "# {{.ProjectName}}"]> templateFiles
  /\ fst (applyTemplate linuxEnv "readme.md" "nodir/out.md"
            {| fs := templateFiles; answers := []; trace := [] |})
     = Some (CreateOutputFailed ENOENT).
Proof.
  split.
  - destruct (apply_fills_fresh_destination linuxEnv "readme.md" "README.md"
                {| fs := templateFiles; answers := []; trace := [] |}
                (snd (collectTemplateVars linuxEnv
                        {| fs := templateFiles; answers := []; trace := [] |}))
                "/home/u/.berga/templates/readme.md.tmpl"
                "# {{.ProjectName}}" "# {{.ProjectName}}" "# {{.ProjectName}}"
                (fst (collectTemplateVars linuxEnv
                        {| fs := templateFiles; answers := []; trace := [] |}))
                None eq_refl eq_refl eq_refl eq_refl eq_refl eq_refl)
      as [Hmade _].
    destruct (Hmade eq_refl) as [_ Hfiles]. exact Hfiles.
  - destruct (apply_fills_fresh_destination linuxEnv "readme.md" "nodir/out.md"
                {| fs := templateFiles; answers := []; trace := [] |}
                (snd (collectTemplateVars linuxEnv
                        {| fs := templateFiles; answers := []; trace := [] |}))
                "/home/u/.berga/templates/readme.md.tmpl"
                "# {{.ProjectName}}" "# {{.ProjectName}}" "# {{.ProjectName}}"
                (fst (collectTemplateVars linuxEnv
                        {| fs := templateFiles; answers := []; trace := [] |}))
                None eq_refl eq_refl eq_refl eq_refl eq_refl eq_refl)
      as [_ Hrefused].
    destruct (Hrefused ENOENT eq_refl) as [Hrun _]. now rewrite Hrun.
Defined.

(** X18.  Overwriting a destination after the answer [y] or [yes], in any
    case of the letters: a file the user may read and write keeps its
    permission bits and comes to hold what the template's execution wrote;
    a file the user may not write to is left as it is and the failure to
    create it is returned, after the variables have been asked for all the
    same. *)
Theorem accepted_overwrite_keeps_mode (env : Env) (name output : string) (w w1 : World)
    (templatePath text tmpl written old response : string) (more : list string)
    (vars : gmap string string) (failure : option string) (perm : Z) :
  findTemplate env (fs w) (GetTemplatesDir env) name = Some templatePath ->
  read_file (fs w) templatePath = inl text ->
  template_Parse env name text = Some tmpl ->
  fs w !! output = Some (RegularFile perm old) ->
  answers w = response :: more ->
  strings_ToLower response = "y" \/ strings_ToLower response = "yes" ->
  collectTemplateVars env
    {| fs := fs w; answers := more;
       trace := trace w ++ [Output (MsgOverwrite output)] |} = (vars, w1) ->
  template_Execute env tmpl vars = (written, failure) ->
  (readable perm = true -> writable perm = true ->
     fst (applyTemplate env name output w) = ExecuteTemplateFailed <$> failure
     /\ fs (snd (applyTemplate env name output w)) !! output
        = Some (RegularFile perm written))
  /\ (writable perm = false ->
      fst (applyTemplate env name output w) = Some (CreateOutputFailed EACCES)
      /\ fs (snd (applyTemplate env name output w)) = fs w
      /\ answers (snd (applyTemplate env name output w)) = answers w1).
Proof.
  intros Hfind Hread Hparse Hdest Hanswers Hyes Hcollect Hexec.
  assert (Hfs1 : fs w1 = fs w).
  { pose proof (Quiet_collectTemplateVars env
                  {| fs := fs w; answers := more;
                     trace := trace w ++ [Output (MsgOverwrite output)] |})
      as [Hq _].
    now rewrite Hcollect in Hq. }
  assert (Haccept : negb (String.eqb (strings_ToLower response) "y")
                    && negb (String.eqb (strings_ToLower response) "yes") = false).
  { destruct Hyes as [-> | ->]; reflexivity. }
  assert (Hrun : applyTemplate env name output w
                 = let (created, w2) := os_Create env output written w1 in
                   match created with
                   | Some err => (Some (CreateOutputFailed err), w2)
                   | None =>
                       match failure with
                       | Some err => (Some (ExecuteTemplateFailed err), w2)
                       | None => (None, after w2 [Output (MsgApplied name output)])
                       end
                   end).
  { unfold applyTemplate, applyFound, renderTemplate.
    unfold os_Stat, os_ReadFile, print, emit. unfold bind, gets, ret.
    cbv beta iota. rewrite Hfind. cbv beta iota.
    unfold stat at 1. rewrite Hdest. cbv beta iota.
    rewrite fmt_Scanln_reads. cbn [fs answers trace].
    rewrite Hanswers. cbn [hd tl]. rewrite Haccept. cbv beta iota.
    cbn [fs answers trace]. rewrite Hread, Hparse, Hcollect, Hexec.
    destruct (os_Create env output written w1) as [[err|] w2];
      [reflexivity|].
    destruct failure; reflexivity. }
  rewrite Hrun. unfold os_Create. rewrite Hfs1, Hdest. split.
  - intros -> ->. destruct failure as [err|]; simpl;
      (split; [reflexivity | apply lookup_insert_eq]).
  - intros ->. rewrite andb_false_r. simpl. now rewrite Hfs1.
Qed.

Lemma accepted_overwrite_keeps_mode_witness :
  fs (snd (applyTemplate linuxEnv "readme.md" "out.md" acceptWorld)) !! "out.md"
  = Some (RegularFile 0x180 "# {{.ProjectName}}").
Proof.
  destruct (accepted_overwrite_keeps_mode linuxEnv "readme.md" "out.md" acceptWorld
              (snd (collectTemplateVars linuxEnv
                      {| fs := fs acceptWorld; answers := [];
                         trace := [Output (MsgOverwrite "out.md")] |}))
              "/home/u/.berga/templates/readme.md.tmpl"
              "# {{.ProjectName}}" "# {{.ProjectName}}" "# {{.ProjectName}}"
              "old" "YES" []
              (fst (collectTemplateVars linuxEnv
                      {| fs := fs acceptWorld; answers := [];
                         trace := [Output (MsgOverwrite "out.md")] |}))
              None 0x180
              eq_refl eq_refl eq_refl eq_refl eq_refl (or_intror eq_refl)
              eq_refl eq_refl)
    as [Hwritten _].
  destruct (Hwritten eq_refl eq_refl) as [_ Hfile]. exact Hfile.
Defined.

(** ** Sizes in listings *)

(** Rounding to the nearest integer misses by half a unit at most. *)
Lemma roundHalfEven_near (a d : Z) :
  0 <= a -> 0 < d ->
  2 * Z.abs (a - d * roundHalfEven a d) <= d
  /\ a / d <= roundHalfEven a d <= a / d + 1.
Proof.
  intros Ha Hd. unfold roundHalfEven.
  pose proof (Z.div_mod a d ltac:(lia)) as Hdm.
  pose proof (Z.mod_pos_bound a d Hd) as Hr.
  destruct (d <? 2 * (a mod d)) eqn:Hup; simpl.
  - apply Z.ltb_lt in Hup. split; nia.
  - apply Z.ltb_ge in Hup.
    destruct ((d =? 2 * (a mod d)) && Z.odd (a / d)) eqn:Htie.
    + apply andb_true_iff in Htie. destruct Htie as [Heq _].
      apply Z.eqb_eq in Heq. split; nia.
    + split; nia.
Qed.

Lemma float64_exact (n : Z) : n < 2 ^ 53 -> float64_of_int64 n = n.
Proof.
  intros Hn. unfold float64_of_int64. apply Z.ltb_lt in Hn. now rewrite Hn.
Qed.

(** X19.  The size shown in a listing: below 1024 the number of bytes
    itself; from 1024 up to a mebibyte the number of kibibytes with one
    decimal, within half a tenth of the true quotient and between 1.0 and
    1024.0; from a mebibyte up to [2^53] bytes the same in mebibytes. *)
Theorem size_shown_is_near (size : Z) :
  (size < 1024 -> humanizeSize size = pretty size +:+ " B")
  /\ (1024 <= size < 1024 * 1024 ->
      exists tenths,
        humanizeSize size = formatTenths tenths +:+ " KB"
        /\ 2 * Z.abs (size * 10 - 1024 * tenths) <= 1024
        /\ 10 <= tenths <= 10240)
  /\ (1024 * 1024 <= size < 2 ^ 53 ->
      exists tenths,
        humanizeSize size = formatTenths tenths +:+ " MB"
        /\ 2 * Z.abs (size * 10 - 1024 * 1024 * tenths) <= 1024 * 1024
        /\ 10 <= tenths).
Proof.
  unfold humanizeSize. split; [|split].
  - intros Hsmall. apply Z.ltb_lt in Hsmall. now rewrite Hsmall.
  - intros [Hlow Hhigh].
    assert (H1 : (size <? 1024) = false) by (apply Z.ltb_ge; lia).
    assert (H2 : (size <? 1024 * 1024) = true) by (apply Z.ltb_lt; lia).
    rewrite H1, H2, float64_exact by lia.
    exists (roundHalfEven (size * 10) 1024). split; [reflexivity|].
    destruct (roundHalfEven_near (size * 10) 1024) as [Hnear Hbounds]; [lia | lia |].
    split; [exact Hnear|].
    assert (10 <= size * 10 / 1024) by (apply Z.div_le_lower_bound; lia).
    assert (size * 10 / 1024 <= 10239)
      by (apply Z.lt_succ_r, Z.div_lt_upper_bound; lia).
    lia.
  - intros [Hlow Hhigh].
    assert (H1 : (size <? 1024) = false) by (apply Z.ltb_ge; lia).
    assert (H2 : (size <? 1024 * 1024) = false) by (apply Z.ltb_ge; lia).
    rewrite H1, H2, float64_exact by lia.
    exists (roundHalfEven (size * 10) (1024 * 1024)). split; [reflexivity|].
    destruct (roundHalfEven_near (size * 10) (1024 * 1024)) as [Hnear Hbounds];
      [lia | lia |].
    split; [exact Hnear|].
    assert (10 <= size * 10 / (1024 * 1024)) by (apply Z.div_le_lower_bound; lia).
    lia.
Qed.

Lemma size_shown_is_near_witness :
  humanizeSize 1023 = "1023 B"
  /\ (exists tenths, humanizeSize 1536 = formatTenths tenths +:+ " KB"
                     /\ 2 * Z.abs (1536 * 10 - 1024 * tenths) <= 1024
                     /\ 10 <= tenths <= 10240)
  /\ (exists tenths, humanizeSize 5242880 = formatTenths tenths +:+ " MB"
                     /\ 2 * Z.abs (5242880 * 10 - 1024 * 1024 * tenths) <= 1024 * 1024
                     /\ 10 <= tenths).
Proof.
  split; [|split].
  - apply (size_shown_is_near 1023). lia.
  - apply (size_shown_is_near 1536). lia.
  - apply (size_shown_is_near 5242880). lia.
Defined.

(** X20.  The last 51 sizes below a mebibyte are shown as [1024.0 KB]: the
    figure in kibibytes is rounded before the unit is chosen by the exact
    size. *)
Theorem just_below_a_mebibyte (size : Z) :
  1048525 <= size < 1048576 -> humanizeSize size = "1024.0 KB".
Proof.
  intros [Hlow Hhigh]. unfold humanizeSize.
  assert (H1 : (size <? 1024) = false) by (apply Z.ltb_ge; lia).
  assert (H2 : (size <? 1024 * 1024) = true) by (apply Z.ltb_lt; lia).
  rewrite H1, H2, float64_exact by lia.
  assert (Hround : roundHalfEven (size * 10) 1024 = 10240).
  { unfold roundHalfEven.
    assert (Hq : size * 10 / 1024 = 10239).
    { symmetry. apply (Z.div_unique (size * 10) 1024 10239 (size * 10 - 10484736)); lia. }
    assert (Hr : (size * 10) mod 1024 = size * 10 - 10484736).
    { symmetry. apply (Z.mod_unique (size * 10) 1024 10239); lia. }
    rewrite Hq, Hr.
    assert (Hup : (1024 <? 2 * (size * 10 - 10484736)) = true) by (apply Z.ltb_lt; lia).
    now rewrite Hup. }
  rewrite Hround. reflexivity.
Qed.

Lemma just_below_a_mebibyte_witness : humanizeSize 1048575 = "1024.0 KB".
Proof. apply (just_below_a_mebibyte 1048575). lia. Defined.

(** ** Listings *)

Lemma length_append (a b : string) :
  String.length (a +:+ b) = (String.length a + String.length b)%nat.
Proof.
  induction a as [|c a IH]; [reflexivity|]. rewrite append_cons. simpl. now rewrite IH.
Qed.

Lemma rev_length (s : string) : String.length (String.rev s) = String.length s.
Proof.
  induction s as [|c s IH]; [reflexivity|].
  rewrite rev_cons, length_append, IH. simpl. lia.
Qed.

Lemma slice_from_append (a b : string) : slice_from (String.length a) (a +:+ b) = b.
Proof. induction a as [|c a IH]; [reflexivity|]. rewrite append_cons. apply IH. Qed.

(** [TrimSuffix] takes a suffix that is there off, once, and leaves a
    string without it alone. *)
Lemma TrimSuffix_append (stem suffix : string) :
  strings_TrimSuffix (stem +:+ suffix) suffix = stem.
Proof.
  unfold strings_TrimSuffix.
  assert (Hhas : strings_HasSuffix (stem +:+ suffix) suffix = true)
    by (apply HasSuffix_spec; now exists stem).
  rewrite Hhas, rev_append, <- (rev_length suffix), slice_from_append.
  apply rev_involutive.
Qed.

Lemma scriptLine_in (env : Env) (files : gmap string node) (dir : string)
    (entries : list DirEntry) (line : listLine) :
  In line (flat_map (scriptLine env files dir) entries) ->
  exists file size modified,
    In file entries
    /\ entryIsDir file = false
    /\ entryInfo file = Some (size, modified)
    /\ line = LineScript (isExecutable env files (filepath_Join env dir (entryName file)))
                (entryName file) (humanizeSize size) modified.
Proof.
  intros Hin. apply in_flat_map in Hin. destruct Hin as (file & Hfile & Hline).
  unfold scriptLine in Hline.
  destruct (entryIsDir file) eqn:Hdir; [contradiction|].
  destruct (entryInfo file) as [[size modified]|] eqn:Hinfo; [|contradiction].
  destruct Hline as [<-|[]]. exists file, size, modified. auto.
Qed.

Lemma listScripts_lines (env : Env)
    (readDir : gmap string node -> string -> list DirEntry + oserror)
    (files : gmap string node) (exe : bool) (name size modified : string) :
  In (LineScript exe name size modified) (fst (listScripts env readDir files)) ->
  exists entries,
    readDir files (GetScriptsDir env) = inl entries
    /\ In (LineScript exe name size modified)
         (flat_map (scriptLine env files (GetScriptsDir env)) entries).
Proof.
  unfold listScripts.
  destruct (notExist (stat files (GetScriptsDir env))).
  { simpl. intuition discriminate. }
  destruct (readDir files (GetScriptsDir env)) as [entries|err]; [|intros []].
  destruct (length entries =? 0)%nat.
  { simpl. intuition discriminate. }
  simpl. intros [H|[H|H]]; try discriminate.
  apply in_app_or in H. destruct H as [H|H].
  - now exists entries.
  - simpl in H. intuition discriminate.
Qed.

(** X21.  Off Windows, the listing marks as executable exactly the scripts
    that a run launches directly: a script line bears the mark if and only
    if running that name, with any arguments, starts the script file itself
    rather than an interpreter or [sh]. *)
Theorem mark_tells_direct_runs (env : Env)
    (readDir : gmap string node -> string -> list DirEntry + oserror)
    (files : gmap string node) (exe : bool) (name size modified : string)
    (args : list string) :
  GOOS env <> "windows" ->
  In (LineScript exe name size modified) (fst (listScripts env readDir files)) ->
  exe = true
  <-> scriptCommand env files name (filepath_Join env (GetScriptsDir env) name) args
      = exec_Command (filepath_Join env (GetScriptsDir env) name) args.
Proof.
  intros Hposix Hline. apply String.eqb_neq in Hposix.
  destruct (listScripts_lines env readDir files exe name size modified Hline)
    as (entries & _ & Hin).
  destruct (scriptLine_in env files (GetScriptsDir env) entries _ Hin)
    as (file & size' & modified' & _ & _ & _ & Heq).
  injection Heq as -> -> _ _.
  unfold scriptCommand. rewrite Hposix.
  destruct (isExecutable env files
              (filepath_Join env (GetScriptsDir env) (entryName file))).
  - split; reflexivity.
  - split; [discriminate|].
    assert (Hlonger : forall x : string, (x :: args)%list <> args).
    { intros x Heq. apply (f_equal (@length string)) in Heq. simpl in Heq. lia. }
    destruct (negb (String.eqb (getInterpreter files
                (filepath_Join env (GetScriptsDir env) (entryName file))) EmptyString));
      intros [= _ Hargs]; now apply Hlonger in Hargs.
Qed.

Lemma mark_tells_direct_runs_witness :
  scriptCommand linuxEnv listedFiles "deploy" "/home/u/.berga/scripts/deploy" ["now"]
  = exec_Command "/home/u/.berga/scripts/deploy" ["now"].
Proof.
  apply (mark_tells_direct_runs linuxEnv (readsAs listedEntries) listedFiles true
           "deploy" "21 B" "2025-08-21 10:05" ["now"]).
  - discriminate.
  - vm_compute. auto 10.
  - reflexivity.
Defined.

(** X22.  A scripts directory that holds entries, none of which is a file
    whose information can be had, is listed as a title and the directory
    line with nothing between them, and not as holding no scripts. *)
Theorem only_directories_listed_bare (env : Env)
    (readDir : gmap string node -> string -> list DirEntry + oserror)
    (files : gmap string node) (entries : list DirEntry) :
  files !! GetScriptsDir env <> None ->
  readDir files (GetScriptsDir env) = inl entries ->
  entries <> [] ->
  Forall (fun file => entryIsDir file = true \/ entryInfo file = None) entries ->
  listScripts env readDir files
  = ([LineTitle; LineRule; LineDirectory (GetScriptsDir env)], None)
  /\ ~ In LineNothingFound (fst (listScripts env readDir files)).
Proof.
  intros Hdir Hread Hsome Hnone.
  assert (Hlines : flat_map (scriptLine env files (GetScriptsDir env)) entries = []).
  { clear Hread Hsome. induction Hnone as [|file rest Hfile _ IH]; [reflexivity|].
    simpl. rewrite IH, app_nil_r. unfold scriptLine.
    destruct Hfile as [-> | Hinfo]; [reflexivity|].
    rewrite Hinfo. now destruct (entryIsDir file). }
  assert (Hlist : listScripts env readDir files
                  = ([LineTitle; LineRule; LineDirectory (GetScriptsDir env)], None)).
  { unfold listScripts.
    destruct (notExist (stat files (GetScriptsDir env))) eqn:Hstat.
    { apply notExist_stat in Hstat. contradiction. }
    rewrite Hread. destruct entries as [|file rest]; [contradiction|].
    simpl length. simpl Nat.eqb. cbv iota. now rewrite Hlines. }
  split; [exact Hlist|]. rewrite Hlist. simpl. intuition discriminate.
Qed.

Lemma only_directories_listed_bare_witness :
  listScripts linuxEnv (readsAs bareEntries) bareFiles
  = ([LineTitle; LineRule; LineDirectory "/home/u/.berga/scripts"], None).
Proof.
  apply (only_directories_listed_bare linuxEnv (readsAs bareEntries) bareFiles
           bareEntries).
  - vm_compute. discriminate.
  - reflexivity.
  - discriminate.
  - repeat constructor.
Defined.

Lemma templateLine_display (stem modified : string) (size : Z) :
  templateLine {| entryName := stem +:+ ".tmpl"; entryIsDir := false;
                  entryInfo := Some (size, modified) |}
  = [LineTemplate stem (humanizeSize size) modified]
  /\ (strings_HasSuffix stem ".tmpl" = false ->
      templateLine {| entryName := stem; entryIsDir := false;
                      entryInfo := Some (size, modified) |}
      = [LineTemplate stem (humanizeSize size) modified]).
Proof.
  unfold templateLine. simpl. split.
  - assert (Hhas : strings_HasSuffix (stem +:+ ".tmpl") ".tmpl" = true)
      by (apply HasSuffix_spec; now exists stem).
    now rewrite Hhas, TrimSuffix_append.
  - now intros ->.
Qed.

(** X23.  In the listing of templates a file whose name ends in [.tmpl] is
    shown without that ending, taken off once, and a file whose name does
    not end so is shown under its name: the files [stem.tmpl] and [stem]
    are listed under the same name. *)
Theorem template_listed_without_suffix (env : Env)
    (readDir : gmap string node -> string -> list DirEntry + oserror)
    (files : gmap string node) (entries : list DirEntry)
    (name stem modified : string) (size : Z) :
  files !! GetTemplatesDir env <> None ->
  readDir files (GetTemplatesDir env) = inl entries ->
  In {| entryName := name; entryIsDir := false; entryInfo := Some (size, modified) |}
     entries ->
  name = stem +:+ ".tmpl" \/ (name = stem /\ strings_HasSuffix stem ".tmpl" = false) ->
  In (LineTemplate stem (humanizeSize size) modified)
     (fst (listTemplates env readDir files)).
Proof.
  intros Hdir Hread Hentry Hname. unfold listTemplates.
  destruct (notExist (stat files (GetTemplatesDir env))) eqn:Hstat.
  { apply notExist_stat in Hstat. contradiction. }
  rewrite Hread. destruct (length entries =? 0)%nat eqn:Hlength.
  { apply Nat.eqb_eq in Hlength. destruct entries; [contradiction|discriminate]. }
  cbn [fst]. apply in_or_app. right. apply in_or_app. left.
  apply in_flat_map. eexists. split; [exact Hentry|].
  destruct (templateLine_display stem modified size) as [Hsuffixed Hplain].
  destruct Hname as [-> | [-> Hno]].
  - rewrite Hsuffixed. now left.
  - rewrite (Hplain Hno). now left.
Qed.

Lemma template_listed_without_suffix_witness :
  In (LineTemplate "readme.md" "18 B" "2025-08-21 10:00")
     (fst (listTemplates linuxEnv (readsAs templateEntries) templateFiles)).
Proof.
  apply (template_listed_without_suffix linuxEnv (readsAs templateEntries) templateFiles
           templateEntries "readme.md.tmpl" "readme.md" "2025-08-21 10:00" 18).
  - vm_compute. discriminate.
  - reflexivity.
  - left. reflexivity.
  - left. reflexivity.
Defined.
